(** * ez_lib.postgres: pooled session manager and model helpers

    A shallow embedding of [src/ez_lib/postgres.py]: the class
    [AsyncPgWrapper] (pool life cycle and the [get_session] scope), the
    declarative base [AbstractModelHelper] ([from_dict], [to_values_dict],
    [_log_field_not_found]) and the helper [model_list_to_dict].

    Python objects are records, the class attribute [AsyncPgWrapper.log]
    and everything observable (log calls, calls on a leased session) live
    in an explicit [world] that is threaded through the code, and a raised
    exception is a value of [exn]. *)

From Stdlib Require Import ZArith String Ascii List.
From stdpp Require Import base gmap strings list pretty.

Set Warnings "-register-all".

(** ** Python values and exceptions *)

(** The values of [ez_lib.types.json_types], which are also the values a
    model attribute holds, and [VObject] for any other object (a method,
    a table, a registry), named by [ident] and taken to have no
    [__bool__], [__len__], [__eq__], [__hash__] or [__getitem__] of its
    own.  [float] is not represented. *)
Inductive pyval :=
| VNone
| VBool (b : bool)
| VInt (n : Z)
| VStr (s : string)
| VList (items : list pyval)
| VDict (entries : gmap string pyval)
| VObject (ident : string).

(** The exceptions this module raises or lets through.  [OtherError] stands
    for any exception raised by caller code inside a session scope. *)
Inductive exn :=
| KeyError (key : string)
| TypeError
| AttributeError
| RuntimeError (msg : string)
| DictKeyMapError (model_cls id_field_name : string)
| OtherError (cls msg : string).

Inductive result (A : Type) :=
| Ok (a : A)
| Raise (e : exn).
Arguments Ok {A} a.
Arguments Raise {A} e.

Definition is_ok {A} (r : result A) : bool :=
  match r with Ok _ => true | Raise _ => false end.

(** [bool(v)] *)
Definition truthy (v : pyval) : bool :=
  match v with
  | VNone => false
  | VBool b => b
  | VInt n => negb (n =? 0)%Z
  | VStr s => negb (String.eqb s "")
  | VList items => match items with [] => false | _ => true end
  | VDict entries => negb (bool_decide (entries = ∅))
  | VObject _ => true
  end.

(** [f[k]] for a string [k]: a dictionary raises [KeyError] on an absent
    key, every other value raises [TypeError]. *)
Definition py_getitem (f : pyval) (k : string) : result pyval :=
  match f with
  | VDict entries =>
      match entries !! k with
      | Some v => Ok v
      | None => Raise (KeyError k)
      end
  | _ => Raise TypeError
  end.

(** ** Loggers, sessions and the world *)

Record Logger := { logger_name : string }.

Inductive level := DEBUG | INFO | ERROR.

(** The awaited calls on a leased [AsyncSession]. *)
Inductive session_call := SCommit | SRollback | SClose | SExecute (stmt : string).

Record AsyncSession := { session_id : nat }.

Inductive event :=
| EvLog (lg : Logger) (lv : level) (msg : string)
| EvSession (s : AsyncSession) (c : session_call).

(** [cls_log] is the class attribute [AsyncPgWrapper.log]; [trace] records
    every log call and every call on a session, oldest first. *)
Record world := {
  cls_log : option Logger;
  trace : list event;
  next_session : nat;
}.

Definition emit (ev : event) (w : world) : world :=
  {| cls_log := cls_log w; trace := trace w ++ [ev]; next_session := next_session w |}.

Definition set_cls_log (log : option Logger) (w : world) : world :=
  {| cls_log := log; trace := trace w; next_session := next_session w |}.

(** ** The driver

    [create_async_engine], the pool behind an engine, [Pool.dispose] and
    the sessions are SQLAlchemy's, not this repository's: they are an
    interface.  An awaited call on a session returns or raises:
    [session_raises s c tr] is the exception the call [c] on session [s]
    raises when made after the events [tr], if it raises. *)
Class Driver := {
  Pool : Type;
  create_pool : string → Z → Z → Z → Z → bool → Pool;
  pool_dispose : Pool → Pool;
  session_raises : AsyncSession → session_call → list event → option exn;
}.

(** [await session.c()]: the call is recorded, and returns or raises. *)
Definition session_await `{Driver} (s : AsyncSession) (c : session_call) (w : world)
    : option exn * world :=
  (session_raises s c (trace w), emit (EvSession s c) w).

Definition session_rollback `{Driver} (s : AsyncSession) : world → option exn * world :=
  session_await s SRollback.
Definition session_close `{Driver} (s : AsyncSession) : world → option exn * world :=
  session_await s SClose.
Definition session_commit `{Driver} (s : AsyncSession) : world → option exn * world :=
  session_await s SCommit.

(** A concrete driver: a pool is the list of its idle connections, as many
    as [pool_size] once warmed up; disposing drops them all; no call on a
    session raises. *)
Definition idle_list_driver : Driver := {|
  Pool := list nat;
  create_pool := λ _ pool_size _ _ _ _, seq 0 (Z.to_nat pool_size);
  pool_dispose := λ _, [];
  session_raises := λ _ _ _, None;
|}.

(** The same driver on a connection that was lost: every rollback raises. *)
Definition lost_connection_driver : Driver := {|
  Pool := list nat;
  create_pool := λ _ pool_size _ _ _ _, seq 0 (Z.to_nat pool_size);
  pool_dispose := λ _, [];
  session_raises := λ _ c _,
    match c with
    | SRollback => Some (OtherError "InterfaceError" "connection is closed")
    | _ => None
    end;
|}.

(** ** AsyncPgWrapper *)

Record AsyncEngine `{Driver} := {
  url : string;
  pool : Pool;
}.

Record async_sessionmaker := {
  bind : string;
  expire_on_commit : bool;
  autoflush : bool;
}.

Record AsyncPgWrapper `{Driver} := {
  _host : string;
  _port : Z;
  _user : string;
  _passwd : string;
  _db_name : string;
  _pool_size : Z;
  _pool_max_overflow : Z;
  _pool_timeout : Z;
  _pool_recycle : Z;
  _engine : option AsyncEngine;
  _session_maker : option async_sessionmaker;
}.

(** [AsyncPgWrapper.__init__]: stores the configuration and assigns the
    class attribute [AsyncPgWrapper.log]. *)
Definition __init__ `{Driver} (host : string) (port : Z) (user passwd db_name : string)
    (pool_size pool_max_overflow pool_timeout pool_recycle : Z)
    (log : option Logger) (w : world) : AsyncPgWrapper * world :=
  ({| _host := host; _port := port; _user := user; _passwd := passwd;
      _db_name := db_name; _pool_size := pool_size;
      _pool_max_overflow := pool_max_overflow;
      _pool_timeout := pool_timeout; _pool_recycle := pool_recycle;
      _engine := None; _session_maker := None |},
   set_cls_log log w).

Definition _mk_conn_str `{Driver} (self : AsyncPgWrapper) : string :=
  "postgresql+asyncpg://" +:+ _user self +:+ ":" +:+ _passwd self +:+ "@" +:+
  _host self +:+ ":" +:+ pretty (_port self) +:+ "/" +:+ _db_name self.

Definition init `{Driver} (self : AsyncPgWrapper) (w : world) : AsyncPgWrapper * world :=
  let engine :=
    {| url := _mk_conn_str self;
       pool := create_pool (_mk_conn_str self) (_pool_size self)
                 (_pool_max_overflow self) (_pool_timeout self)
                 (_pool_recycle self) false |} in
  let session_maker :=
    {| bind := url engine; expire_on_commit := false; autoflush := true |} in
  ({| _host := _host self; _port := _port self; _user := _user self;
      _passwd := _passwd self; _db_name := _db_name self;
      _pool_size := _pool_size self;
      _pool_max_overflow := _pool_max_overflow self;
      _pool_timeout := _pool_timeout self;
      _pool_recycle := _pool_recycle self;
      _engine := Some engine; _session_maker := Some session_maker |},
   match cls_log w with
   | Some lg => emit (EvLog lg INFO "Postgres Connection Pool Created.") w
   | None => w
   end).

(** The module-level name [async_sessionmaker] is the class imported from
    [sqlalchemy.ext.asyncio]; a class is truthy. *)
Definition async_sessionmaker_truthy : bool := true.

(** Calling the session factory: a new session object, no driver call. *)
Definition session_maker_call (sm : async_sessionmaker) (w : world) : AsyncSession * world :=
  ({| session_id := next_session w |},
   {| cls_log := cls_log w; trace := trace w; next_session := S (next_session w) |}).

Definition rollback_msg (exn_str : exn → string) (e : exn) : string :=
  "Error during leased SQL Alchemy Postgres AsyncSession, Rolling Back the tx..." +:+
  String (ascii_of_nat 10) "error=" +:+ exn_str e.

(** [async with self.get_session() as session: body(session)].  The guard
    tests the imported class, not [self._session_maker]; calling [None]
    raises [TypeError].  [exn_str e] is [str(e)].  When the rollback raises,
    [raise e] is not reached and the rollback's exception is in flight;
    [finally] closes the session on every path, and an exception raised by
    the close replaces the one in flight. *)
Definition get_session `{Driver} {A} (exn_str : exn → string) (self : AsyncPgWrapper)
    (body : AsyncSession → world → result A * world) (w : world) : result A * world :=
  if negb async_sessionmaker_truthy then
    (Raise (RuntimeError "SQLAlchemy Postgres async SessionMaker not inited."), w)
  else
    match _session_maker self with
    | None => (Raise TypeError, w)
    | Some sm =>
        let '(session, w1) := session_maker_call sm w in
        match body session w1 with
        | (Ok a, w2) =>
            match session_close session w2 with
            | (Some e', w3) => (Raise e', w3)
            | (None, w3) => (Ok a, w3)
            end
        | (Raise e, w2) =>
            let w3 :=
              match cls_log w2 with
              | Some lg => emit (EvLog lg ERROR (rollback_msg exn_str e)) w2
              | None => w2
              end in
            let '(rolled_back, w4) := session_rollback session w3 in
            let in_flight :=
              match rolled_back with
              | Some e' => e'
              | None => e
              end in
            match session_close session w4 with
            | (Some e', w5) => (Raise e', w5)
            | (None, w5) => (Raise in_flight, w5)
            end
        end
    end.

(** [close]: [self._engine.pool.dispose()]. *)
Definition close `{Driver} (self : AsyncPgWrapper) : result AsyncPgWrapper :=
  match _engine self with
  | None => Raise AttributeError
  | Some engine =>
      Ok {| _host := _host self; _port := _port self; _user := _user self;
            _passwd := _passwd self; _db_name := _db_name self;
            _pool_size := _pool_size self;
            _pool_max_overflow := _pool_max_overflow self;
            _pool_timeout := _pool_timeout self;
            _pool_recycle := _pool_recycle self;
            _engine := Some {| url := url engine; pool := pool_dispose (pool engine) |};
            _session_maker := _session_maker self |}
  end.

(** ** String helpers used by [from_dict] *)

(** [s.startswith('_')] *)
Definition startswith_underscore (s : string) : bool :=
  match s with
  | String "_" _ => true
  | _ => false
  end.

(** ['__' in s] *)
Fixpoint contains_dunder (s : string) : bool :=
  match s with
  | EmptyString => false
  | String c rest =>
      match c, rest with
      | "_"%char, String "_" _ => true
      | _, _ => contains_dunder rest
      end
  end.

(** [s.split('__')]: left to right, matches do not overlap; [acc] is the
    piece read so far. *)
Fixpoint split_dunder_from (acc s : string) : list string :=
  match s with
  | EmptyString => [acc]
  | String c rest =>
      match c, rest with
      | "_"%char, String "_" rest' => acc :: split_dunder_from "" rest'
      | _, _ => split_dunder_from (acc +:+ String c "") rest
      end
  end.

Definition split_dunder (s : string) : list string := split_dunder_from "" s.

(** ** AbstractModelHelper *)

(** What a lookup of a name on the class finds: the descriptor of a mapped
    attribute, a property without a setter (with what its getter returns
    or raises, given the attributes of the instance), or any other class
    attribute, with its value. *)
Inductive class_member :=
| MappedAttr
| ReadOnlyProperty (fget : gmap string pyval → result pyval)
| ClassAttr (value : pyval).

(** What the code reads of a concrete model class: its name, the keys of
    its own [__dict__] in definition order, the keys of [__table__.c], the
    two class attributes that configure serialization, and what attribute
    lookup finds on the class, own or inherited. *)
Record model_class := {
  cls_name : string;
  cls_dict_keys : list string;
  table_columns : list string;
  _serialize_map : gmap string string;
  _except_fields : list string;
  cls_members : gmap string class_member;
}.

Record Model := {
  cls : model_class;
  attrs : gmap string pyval;
}.

(** [getattr(self, name)]: a mapped attribute reads the value set on the
    instance, [None] when it was never set; a property reads what its
    getter returns; otherwise the value set on the instance, else the
    class attribute; a name found nowhere raises [AttributeError].
    [attrs] holds the state of the mapped attributes and the instance
    [__dict__]. *)
Definition getattr (self : Model) (name : string) : result pyval :=
  match cls_members (cls self) !! name with
  | Some MappedAttr =>
      match attrs self !! name with
      | Some v => Ok v
      | None => Ok VNone
      end
  | Some (ReadOnlyProperty fget) => fget (attrs self)
  | Some (ClassAttr value) =>
      match attrs self !! name with
      | Some v => Ok v
      | None => Ok value
      end
  | None =>
      match attrs self !! name with
      | Some v => Ok v
      | None => Raise AttributeError
      end
  end.

(** [setattr(self, name, v)]: a property without a setter raises
    [AttributeError]; every other name is set on the instance. *)
Definition setattr (self : Model) (name : string) (v : pyval) : result Model :=
  match cls_members (cls self) !! name with
  | Some (ReadOnlyProperty _) => Raise AttributeError
  | _ => Ok {| cls := cls self; attrs := <[name := v]> (attrs self) |}
  end.

(** [setattr(self, field_name, <looked up>)]: the value is looked up first. *)
Definition set_looked_up (self : Model) (field_name : string)
    (looked_up : result pyval) : result Model :=
  match looked_up with
  | Ok v => setattr self field_name v
  | Raise e => Raise e
  end.

Definition field_not_found_msg (self : Model) (field_name : string) : string :=
  "SqlAlchemy Model '" +:+ cls_name (cls self) +:+ "' field '" +:+ field_name +:+
  "' not found.".

Definition _log_field_not_found (self : Model) (field_name : string) (w : world) : world :=
  match cls_log w with
  | Some lg => emit (EvLog lg DEBUG (field_not_found_msg self field_name)) w
  | None => w
  end.

(** [f = d; for nested in arr: f = f[nested]] *)
Fixpoint walk_nested (arr : list string) (f : pyval) : result pyval :=
  match arr with
  | [] => Ok f
  | nested :: rest =>
      match py_getitem f nested with
      | Ok f' => walk_nested rest f'
      | Raise e => Raise e
      end
  end.

(** One iteration of the loop of [from_dict].  The outcome is the exception
    that leaves the iteration, if any, with the record and the world as
    they are at that point. *)
Definition from_dict_field (d : pyval) (strict : bool) (field_name : string)
    (self : Model) (w : world) : option exn * Model * world :=
  if negb (startswith_underscore field_name)
     && bool_decide (field_name ∉ _except_fields (cls self)) then
    match _serialize_map (cls self) !! field_name with
    | Some key =>
        match set_looked_up self field_name (py_getitem d key) with
        | Ok self' => (None, self', w)
        | Raise e => (Some e, self, w)
        end
    | None =>
        if negb (contains_dunder field_name) then
          match set_looked_up self field_name (py_getitem d field_name) with
          | Ok self' => (None, self', w)
          | Raise (KeyError k) =>
              let w' := _log_field_not_found self field_name w in
              if strict then (Some (KeyError k), self, w') else (None, self, w')
          | Raise e => (Some e, self, w)
          end
        else
          match set_looked_up self field_name
                  (walk_nested (split_dunder field_name) d) with
          | Ok self' => (None, self', w)
          | Raise (KeyError k) =>
              let w' := _log_field_not_found self field_name w in
              if strict then (Some (KeyError k), self, w') else (None, self, w')
          | Raise e => (Some e, self, w)
          end
    end
  else (None, self, w).

Fixpoint from_dict_fields (fields : list string) (d : pyval) (strict : bool)
    (self : Model) (w : world) : option exn * Model * world :=
  match fields with
  | [] => (None, self, w)
  | field_name :: rest =>
      match from_dict_field d strict field_name self w with
      | (None, self', w') => from_dict_fields rest d strict self' w'
      | raised => raised
      end
  end.

(** [self.from_dict(d, strict)] *)
Definition from_dict (self : Model) (d : pyval) (strict : bool) (w : world)
    : option exn * Model * world :=
  from_dict_fields (cls_dict_keys (cls self)) d strict self w.

(** The dictionary comprehension of [to_values_dict], one column at a time. *)
Fixpoint to_values_dict_from (self : Model) (include : list string)
    (columns : list string) (acc : gmap string pyval) : result (gmap string pyval) :=
  match columns with
  | [] => Ok acc
  | key :: rest =>
      if bool_decide (key ∉ _except_fields (cls self)) || bool_decide (key ∈ include) then
        match getattr self key with
        | Ok v => to_values_dict_from self include rest (<[key := v]> acc)
        | Raise e => Raise e
        end
      else to_values_dict_from self include rest acc
  end.

Definition to_values_dict (self : Model) (include : list string) : result (gmap string pyval) :=
  to_values_dict_from self include (table_columns (cls self)) ∅.

(** ** Dictionaries keyed by values, and [model_list_to_dict] *)

(** Hashable values up to [==]: [True == 1] and [False == 0] are the same
    dictionary key; lists and dictionaries are unhashable; an object is
    equal to itself only. *)
Inductive pykey := KNone | KInt (n : Z) | KStr (s : string) | KObject (ident : string).

#[global] Instance pykey_eq_dec : EqDecision pykey.
Proof. solve_decision. Defined.

Definition key_of (v : pyval) : option pykey :=
  match v with
  | VNone => Some KNone
  | VBool b => Some (KInt (if b then 1 else 0))
  | VInt n => Some (KInt n)
  | VStr s => Some (KStr s)
  | VList _ | VDict _ => None
  | VObject ident => Some (KObject ident)
  end.

Definition hashable (v : pyval) : bool :=
  match key_of v with Some _ => true | None => false end.

(** [a == b] on dictionary keys *)
Definition py_key_eqb (a b : pyval) : bool :=
  match key_of a, key_of b with
  | Some x, Some y => bool_decide (x = y)
  | _, _ => false
  end.

(** A [dict] with value keys, in insertion order. *)
Definition pydict (V : Type) : Type := list (pyval * V).

Fixpoint dict_store {V} (d : pydict V) (k : pyval) (x : V) : pydict V :=
  match d with
  | [] => [(k, x)]
  | (k', x') :: rest =>
      if py_key_eqb k' k then (k', x) :: rest
      else (k', x') :: dict_store rest k x
  end.

(** [d[k] = x] *)
Definition dict_setitem {V} (d : pydict V) (k : pyval) (x : V) : result (pydict V) :=
  if hashable k then Ok (dict_store d k x) else Raise TypeError.

(** [d.get(k)] *)
Fixpoint dict_get {V} (d : pydict V) (k : pyval) : option V :=
  match d with
  | [] => None
  | (k', x) :: rest => if py_key_eqb k' k then Some x else dict_get rest k
  end.

Fixpoint model_list_to_dict_from (models : list Model) (id_field_name : string)
    (d : pydict Model) : result (pydict Model) :=
  match models with
  | [] => Ok d
  | model :: rest =>
      match getattr model id_field_name with
      | Raise e => Raise e
      | Ok id_field =>
          if negb (truthy id_field) then
            Raise (DictKeyMapError (cls_name (cls model)) id_field_name)
          else
            match dict_setitem d id_field model with
            | Ok d' => model_list_to_dict_from rest id_field_name d'
            | Raise e => Raise e
            end
      end
  end.

Definition model_list_to_dict (models : list Model) (id_field_name : string)
    : result (pydict Model) :=
  model_list_to_dict_from models id_field_name [].

(** ** Counting calls in a trace *)

#[global] Instance AsyncSession_eq_dec : EqDecision AsyncSession.
Proof. solve_decision. Defined.

#[global] Instance session_call_eq_dec : EqDecision session_call.
Proof. solve_decision. Defined.

Definition is_call (s : AsyncSession) (c : session_call) (ev : event) : bool :=
  match ev with
  | EvSession s' c' => bool_decide (s' = s) && bool_decide (c' = c)
  | EvLog _ _ _ => false
  end.

(** How many times [c] was called on session [s] in [evs]. *)
Definition calls_of (s : AsyncSession) (c : session_call) (evs : list event) : nat :=
  length (List.filter (is_call s c) evs).

(** What the scope of [get_session] writes to the log when the body raises
    [e] while [log] is the class logger. *)
Definition error_log (exn_str : exn → string) (log : option Logger) (e : exn) : list event :=
  match log with
  | Some lg => [EvLog lg ERROR (rollback_msg exn_str e)]
  | None => []
  end.

(** A wrapper on which [init] has run. *)
Definition initialized `{Driver} (self : AsyncPgWrapper) : Prop :=
  is_Some (_engine self) ∧ is_Some (_session_maker self).

(** The condition of the comprehension of [to_values_dict]. *)
Definition selected (self : Model) (include : list string) (key : string) : Prop :=
  key ∉ _except_fields (cls self) ∨ key ∈ include.


(** A record whose field [id_field_name] can serve as a dictionary key. *)
Definition indexable (id_field_name : string) (model : Model) : Prop :=
  ∃ v, getattr model id_field_name = Ok v ∧ truthy v = true ∧ hashable v = true.

(** The key of [model], compared with [k] by [==]. *)
Definition has_key (id_field_name : string) (k : pyval) (model : Model) : bool :=
  match getattr model id_field_name with
  | Ok v => py_key_eqb v k
  | Raise _ => false
  end.

(** The last record of [models] whose key is [k]. *)
Definition last_with_key (id_field_name : string) (k : pyval) (models : list Model)
    : option Model :=
  List.find (has_key id_field_name k) (rev models).

(** ** Sample data *)

Definition world0 : world := {| cls_log := None; trace := []; next_session := 0 |}.

Definition pg_log : Logger := {| logger_name := "postgres" |}.
Definition app_log : Logger := {| logger_name := "app" |}.

Definition sample_exn_str (e : exn) : string :=
  match e with
  | OtherError _ msg => msg
  | RuntimeError msg => msg
  | _ => ""
  end.

Definition sample_wrapper : @AsyncPgWrapper idle_list_driver * world :=
  @__init__ idle_list_driver "localhost" 5432 "ez" "secret" "ezdb" 10 10 30 1800
    (Some pg_log) world0.

Definition sample_inited : @AsyncPgWrapper idle_list_driver * world :=
  @init idle_list_driver sample_wrapper.1 sample_wrapper.2.

Definition sample_inited_lost : @AsyncPgWrapper lost_connection_driver * world :=
  @init lost_connection_driver
    (@__init__ lost_connection_driver "localhost" 5432 "ez" "secret" "ezdb" 10 10 30
       1800 (Some pg_log) world0).1
    (@__init__ lost_connection_driver "localhost" 5432 "ez" "secret" "ezdb" 10 10 30
       1800 (Some pg_log) world0).2.

Definition body_insert_fails (s : AsyncSession) (w : world) : result unit * world :=
  (Raise (OtherError "IntegrityError" "duplicate key"),
   emit (EvSession s (SExecute "INSERT")) w).

Definition body_insert_commit (s : AsyncSession) (w : world) : result unit * world :=
  match @session_commit idle_list_driver s (emit (EvSession s (SExecute "INSERT")) w) with
  | (Some e, w') => (Raise e, w')
  | (None, w') => (Ok (), w')
  end.


(** What lookup finds on a model class with the mapped attributes
    [mapped]: their descriptors, the class attributes the declaration
    gives, and what [AbstractModelHelper] hands down.  SQLAlchemy's own
    class-level objects and the attributes of [object] are not listed. *)
Definition model_members (tablename : string) (mapped : list string)
    (serialize_map : gmap string string) (except_fields : list string)
    : gmap string class_member :=
  list_to_map ((λ name, (name, MappedAttr)) <$> mapped) ∪
  list_to_map
    [("__module__", ClassAttr (VStr "models"));
     ("__tablename__", ClassAttr (VStr tablename));
     ("_serialize_map", ClassAttr (VDict (VStr <$> serialize_map)));
     ("_except_fields", ClassAttr (VList (VStr <$> except_fields)));
     ("from_dict", ClassAttr (VObject "AbstractModelHelper.from_dict"));
     ("to_values_dict", ClassAttr (VObject "AbstractModelHelper.to_values_dict"));
     ("_log_field_not_found",
      ClassAttr (VObject "AbstractModelHelper._log_field_not_found"));
     ("__str__", ClassAttr (VObject "AbstractModelHelper.__str__"))].

(** A model class with columns [id] and [name]. *)
Definition Item : model_class := {|
  cls_name := "Item";
  cls_dict_keys := ["__module__"; "__tablename__"; "id"; "name"; "__table__"];
  table_columns := ["id"; "name"];
  _serialize_map := ∅;
  _except_fields := [];
  cls_members := model_members "item" ["id"; "name"] ∅ [];
|}.

Definition item (id : pyval) (name : string) : Model :=
  {| cls := Item; attrs := {[ "id" := id; "name" := VStr name ]} |}.

(** The same columns, with [id] excluded from serialization. *)
Definition Account : model_class := {|
  cls_name := "Account";
  cls_dict_keys := ["__module__"; "__tablename__"; "id"; "name"; "_except_fields"; "__table__"];
  table_columns := ["id"; "name"];
  _serialize_map := ∅;
  _except_fields := ["id"];
  cls_members := model_members "account" ["id"; "name"] ∅ ["id"];
|}.

Definition account : Model :=
  {| cls := Account; attrs := {[ "id" := VInt 7; "name" := VStr "ann" ]} |}.

(** A class whose field [my_id] is read from the key [id]. *)
Definition Renamed : model_class := {|
  cls_name := "Renamed";
  cls_dict_keys := ["__module__"; "__tablename__"; "my_id"; "name"; "_serialize_map"; "__table__"];
  table_columns := ["my_id"; "name"];
  _serialize_map := {[ "my_id" := "id" ]};
  _except_fields := [];
  cls_members := model_members "renamed" ["my_id"; "name"] {[ "my_id" := "id" ]} [];
|}.

Definition renamed_blank : Model := {| cls := Renamed; attrs := ∅ |}.

(** A class with fields [a], [b] and the nested field [address__city]. *)
Definition Nested : model_class := {|
  cls_name := "Nested";
  cls_dict_keys := ["__module__"; "__tablename__"; "a"; "b"; "address__city"; "__table__"];
  table_columns := ["a"; "b"; "address__city"];
  _serialize_map := ∅;
  _except_fields := [];
  cls_members := model_members "nested" ["a"; "b"; "address__city"] ∅ [];
|}.

Definition nested_blank : Model := {| cls := Nested; attrs := ∅ |}.

(** [my_id = mapped_column('id')]: the attribute [my_id] is backed by the
    column whose key is [id], which is excepted. *)
Definition Legacy : model_class := {|
  cls_name := "Legacy";
  cls_dict_keys := ["__module__"; "__tablename__"; "my_id"; "name"; "_except_fields";
                    "__table__"];
  table_columns := ["id"; "name"];
  _serialize_map := ∅;
  _except_fields := ["id"];
  cls_members := model_members "legacy" ["my_id"; "name"] ∅ ["id"];
|}.

Definition legacy : Model :=
  {| cls := Legacy; attrs := {[ "my_id" := VInt 7; "name" := VStr "ann" ]} |}.

(** A class with the column [name] and a property [label] without a
    setter, which reads [name]. *)
Definition Labelled : model_class := {|
  cls_name := "Labelled";
  cls_dict_keys := ["__module__"; "__tablename__"; "name"; "label"; "__table__"];
  table_columns := ["name"];
  _serialize_map := ∅;
  _except_fields := [];
  cls_members :=
    <["label" := ReadOnlyProperty
                   (λ attrs, Ok (default VNone (attrs !! "name")))]>
      (model_members "labelled" ["name"] ∅ []);
|}.

Definition labelled_blank : Model := {| cls := Labelled; attrs := ∅ |}.

Definition world_logging : world :=
  {| cls_log := Some pg_log; trace := []; next_session := 0 |}.

(** ** The rest of the module

    [PgSessionSingleton], [mapping_result_to_list], and what the loop of
    [from_dict] reads for a field. *)

(** The test that opens the loop body of [from_dict]. *)
Definition eligible (c : model_class) (field_name : string) : bool :=
  negb (startswith_underscore field_name)
  && bool_decide (field_name ∉ _except_fields c).

(** The value [from_dict] looks up for [field_name] in [d]: through
    [_serialize_map] when the field is renamed, else under its own name,
    else along its [__]-separated path. *)
Definition source_value (c : model_class) (d : pyval) (field_name : string) : result pyval :=
  match _serialize_map c !! field_name with
  | Some key => py_getitem d key
  | None =>
      if negb (contains_dunder field_name) then py_getitem d field_name
      else walk_nested (split_dunder field_name) d
  end.

(** [name] is a property without a setter on the class. *)
Definition read_only (c : model_class) (name : string) : bool :=
  match cls_members c !! name with
  | Some (ReadOnlyProperty _) => true
  | _ => false
  end.

(** The keys of the records of [models] are pairwise different under [==]. *)
Fixpoint distinct_keys (id_field_name : string) (models : list Model) : bool :=
  match models with
  | [] => true
  | model :: rest =>
      match getattr model id_field_name with
      | Ok v => forallb (λ r, negb (has_key id_field_name v r)) rest
      | Raise _ => true
      end && distinct_keys id_field_name rest
  end.

(** [PgSessionSingleton]: the class attribute [_instance] is threaded
    explicitly. *)
Record PgSessionSingleton `{Driver} := {
  _pg_wrapper : AsyncPgWrapper;
}.

Definition PgSessionSingleton__init__ `{Driver} (pg_wrapper : AsyncPgWrapper)
    (_instance : option PgSessionSingleton)
    : PgSessionSingleton * option PgSessionSingleton :=
  ({| _pg_wrapper := pg_wrapper |}, Some {| _pg_wrapper := pg_wrapper |}).

(** [async with PgSessionSingleton.get_session() as session: body(session)] *)
Definition PgSessionSingleton_get_session `{Driver} {A} (exn_str : exn → string)
    (_instance : option PgSessionSingleton)
    (body : AsyncSession → world → result A * world) (w : world) : result A * world :=
  match _instance with
  | Some instance => get_session exn_str (_pg_wrapper instance) body w
  | None =>
      (Raise (RuntimeError
                "Unable to access singleton instance, PgSessionWrapper not initialized."),
       w)
  end.

(** [mapping_result_to_list]: [rows] is [select_result.mappings().all()],
    each row a mapping from names to model instances; a row without the
    name raises the driver's [NoSuchColumnError], a [KeyError]. *)
Fixpoint mapping_result_to_list_from (rows : list (gmap string Model))
    (model_cls_name : string) (ret : list Model) : result (list Model) :=
  match rows with
  | [] => Ok ret
  | item :: rest =>
      match item !! model_cls_name with
      | Some model => mapping_result_to_list_from rest model_cls_name (ret ++ [model])
      | None => Raise (KeyError model_cls_name)
      end
  end.

Definition mapping_result_to_list (rows : list (gmap string Model))
    (model_cls_name : string) : result (list Model) :=
  mapping_result_to_list_from rows model_cls_name [].

(** ** ez_lib.event_dispatcher

    An event is identified with its [str()], a callback is its identity
    and its [__name__].  Log calls and callback calls are recorded; a
    callback that raises or re-enters the dispatcher is outside the model. *)

Abbreviation callback := (nat * string)%type.

Inductive dispatcher_event :=
| DWarning (lg : Logger) (msg : string)
| DDebug (lg : Logger) (msg : string)
| DCall (cb : callback) (args : list pyval) (kwargs : list (string * pyval)).

Record EventDispatcher := {
  _log : option Logger;
  _listeners : gmap string (gset callback);
}.

Definition EventDispatcher__init__ (log : option Logger) : EventDispatcher :=
  {| _log := log; _listeners := ∅ |}.

(** The property [num_listeners]. *)
Definition num_listeners (self : EventDispatcher) : nat :=
  map_fold (λ _ (callbacks : gset callback) n, n + size callbacks) 0 (_listeners self).

Definition already_registered_msg (event : string) (cb : callback) : string :=
  "EventDispatcher: Unable to register listener '" +:+ cb.2 +:+ "' for event '" +:+
  event +:+ "', already registered.".

Definition not_registered_msg (event : string) (cb : callback) : string :=
  "EventDispatcher: Unable to unregister not registered listener, event='" +:+
  event +:+ "', callback='" +:+ cb.2 +:+ "'".

Definition no_listeners_msg (event : string) : string :=
  "EventDispatcher: There are no registered listeners for event='" +:+ event +:+ "'".

Definition register_listener (self : EventDispatcher) (event : string) (cb : callback)
    (tr : list dispatcher_event) : EventDispatcher * list dispatcher_event :=
  match _listeners self !! event with
  | Some s =>
      if bool_decide (cb ∈ s) then
        match _log self with
        | Some lg => (self, tr ++ [DWarning lg (already_registered_msg event cb)])
        | None => (self, tr)
        end
      else (self, tr)
  | None =>
      ({| _log := _log self; _listeners := <[event := {[cb]}]> (_listeners self) |}, tr)
  end.

Definition _log_non_existent_listener (self : EventDispatcher) (event : string)
    (cb : callback) (tr : list dispatcher_event) : list dispatcher_event :=
  match _log self with
  | Some lg => tr ++ [DWarning lg (not_registered_msg event cb)]
  | None => tr
  end.

Definition unregister_listener (self : EventDispatcher) (event : string) (cb : callback)
    (tr : list dispatcher_event) : EventDispatcher * list dispatcher_event :=
  match _listeners self !! event with
  | Some s =>
      if bool_decide (cb ∈ s) then
        if bool_decide (size (s ∖ {[cb]}) = 0) then
          ({| _log := _log self; _listeners := delete event (_listeners self) |}, tr)
        else
          ({| _log := _log self;
              _listeners := <[event := s ∖ {[cb]}]> (_listeners self) |}, tr)
      else (self, _log_non_existent_listener self event cb tr)
  | None => (self, _log_non_existent_listener self event cb tr)
  end.

(** [dispatch_event]: [None.copy()] raises [AttributeError]; the callbacks
    of a set are called in the order the set yields them. *)
Definition dispatch_event (self : EventDispatcher) (event : string)
    (args : list pyval) (kwargs : list (string * pyval))
    (tr : list dispatcher_event) : result unit * list dispatcher_event :=
  match _listeners self !! event with
  | None => (Raise AttributeError, tr)
  | Some s =>
      if bool_decide (s ≠ ∅) then
        (Ok (), tr ++ map (λ cb, DCall cb args kwargs) (elements s))
      else
        match _log self with
        | Some lg => (Ok (), tr ++ [DDebug lg (no_listeners_msg event)])
        | None => (Ok (), tr)
        end
  end.

(** Registrations and removals, applied in order. *)
Inductive listener_op :=
| Register (event : string) (cb : callback)
| Unregister (event : string) (cb : callback).

Definition apply_op (st : EventDispatcher * list dispatcher_event) (op : listener_op)
    : EventDispatcher * list dispatcher_event :=
  match op with
  | Register event cb => register_listener st.1 event cb st.2
  | Unregister event cb => unregister_listener st.1 event cb st.2
  end.

Definition run_ops (log : option Logger) (ops : list listener_op)
    : EventDispatcher * list dispatcher_event :=
  foldl apply_op (EventDispatcher__init__ log, []) ops.

(** Every event that has listeners has exactly one. *)
Definition one_listener_each (self : EventDispatcher) : Prop :=
  ∀ event s, _listeners self !! event = Some s → size s = 1.

(** * Properties *)

(** ** Traces *)

Lemma calls_of_app (s : AsyncSession) (c : session_call) (evs1 evs2 : list event) :
  calls_of s c (evs1 ++ evs2) = calls_of s c evs1 + calls_of s c evs2.
Proof.
  unfold calls_of. by rewrite List.filter_app, length_app.
Qed.

Lemma calls_of_error_log (exn_str : exn → string) (log : option Logger) (e : exn)
    (s : AsyncSession) (c : session_call) :
  calls_of s c (error_log exn_str log e) = 0.
Proof. by destruct log. Qed.

Lemma is_call_same (s : AsyncSession) (c : session_call) :
  is_call s c (EvSession s c) = true.
Proof.
  unfold is_call. by rewrite !bool_decide_eq_true_2.
Qed.

Lemma is_call_other (s : AsyncSession) (c c' : session_call) :
  c' ≠ c → is_call s c (EvSession s c') = false.
Proof.
  intros Hne. unfold is_call.
  rewrite (bool_decide_eq_false_2 (c' = c)) by done.
  apply andb_false_r.
Qed.

Lemma calls_of_cons (s : AsyncSession) (c : session_call) (ev : event) (evs : list event) :
  calls_of s c (ev :: evs) = (if is_call s c ev then 1 else 0) + calls_of s c evs.
Proof.
  unfold calls_of. cbn [List.filter]. by destruct (is_call s c ev).
Qed.

Lemma calls_of_nil (s : AsyncSession) (c : session_call) : calls_of s c [] = 0.
Proof. done. Qed.

Lemma trace_emit (ev : event) (w : world) : trace (emit ev w) = trace w ++ [ev].
Proof. done. Qed.

Lemma cls_log_emit (ev : event) (w : world) : cls_log (emit ev w) = cls_log w.
Proof. done. Qed.

(** ** The session scope *)

Section SessionScope.
Context `{Driver} {A : Type} (exn_str : exn → string).

(** The scope on a wrapper without a session factory never runs the body. *)
Lemma get_session_no_factory (self : AsyncPgWrapper)
    (body : AsyncSession → world → result A * world) (w : world) :
  _session_maker self = None →
  get_session exn_str self body w = (Raise TypeError, w).
Proof.
  intros Hsm. unfold get_session, async_sessionmaker_truthy. simpl. by rewrite Hsm.
Qed.

(** What the scope does once its body has returned. *)
Lemma get_session_returns_eq (self : AsyncPgWrapper) (sm : async_sessionmaker)
    (body : AsyncSession → world → result A * world) (w w2 : world) (a : A) :
  _session_maker self = Some sm →
  body (session_maker_call sm w).1 (session_maker_call sm w).2 = (Ok a, w2) →
  get_session exn_str self body w
  = (match session_raises (session_maker_call sm w).1 SClose (trace w2) with
     | Some e' => Raise e'
     | None => Ok a
     end,
     emit (EvSession (session_maker_call sm w).1 SClose) w2).
Proof.
  intros Hsm Hbody.
  unfold get_session, async_sessionmaker_truthy. simpl. rewrite Hsm.
  unfold session_maker_call in *. simpl in *. rewrite Hbody.
  unfold session_close, session_await.
  by destruct (session_raises _ SClose _).
Qed.

(** What the scope does once its body has raised. *)
Lemma get_session_raises_eq (self : AsyncPgWrapper) (sm : async_sessionmaker)
    (body : AsyncSession → world → result A * world) (w w2 : world) (e : exn) :
  _session_maker self = Some sm →
  body (session_maker_call sm w).1 (session_maker_call sm w).2 = (Raise e, w2) →
  get_session exn_str self body w
  = (match session_raises (session_maker_call sm w).1 SClose
             (trace w2 ++ error_log exn_str (cls_log w2) e ++
              [EvSession (session_maker_call sm w).1 SRollback]) with
     | Some e2 => Raise e2
     | None =>
         match session_raises (session_maker_call sm w).1 SRollback
                 (trace w2 ++ error_log exn_str (cls_log w2) e) with
         | Some e1 => Raise e1
         | None => Raise e
         end
     end,
     {| cls_log := cls_log w2;
        trace := trace w2 ++ error_log exn_str (cls_log w2) e ++
                 [EvSession (session_maker_call sm w).1 SRollback;
                  EvSession (session_maker_call sm w).1 SClose];
        next_session := next_session w2 |}).
Proof.
  intros Hsm Hbody.
  unfold get_session, async_sessionmaker_truthy. simpl. rewrite Hsm.
  unfold session_maker_call in *. simpl in *. rewrite Hbody.
  unfold session_rollback, session_close, session_await, error_log, emit.
  destruct (cls_log w2) as [lg|] eqn:Hlog; simpl; rewrite ?Hlog, <- ?app_assoc; simpl;
    rewrite ?app_nil_r;
    destruct (session_raises _ SRollback _) as [e1|];
    destruct (session_raises _ SClose _) as [e2|]; reflexivity.
Qed.

(** C1 (as amended): when the body of a session scope raises [e], the
    scope logs, if the class logger is set, the message that ends with
    [str(e)], then calls rollback on the session exactly once, then calls
    close on it exactly once.  The caller sees [e] itself when both calls
    return; when the rollback raises and the close returns it sees the
    rollback's exception; when the close raises it sees the close's. *)
Theorem get_session_body_raises (self : AsyncPgWrapper) (sm : async_sessionmaker)
    (body : AsyncSession → world → result A * world) (w w2 : world) (e : exn) :
  _session_maker self = Some sm →
  body (session_maker_call sm w).1 (session_maker_call sm w).2 = (Raise e, w2) →
  ∃ w' logged,
    logged
    = match cls_log w2 with
      | Some lg =>
          [EvLog lg ERROR
             ("Error during leased SQL Alchemy Postgres AsyncSession, Rolling Back the tx..."
              +:+ String (ascii_of_nat 10) ("error=" +:+ exn_str e))]
      | None => []
      end ∧
    trace w'
    = trace w2 ++ logged ++
      [EvSession (session_maker_call sm w).1 SRollback;
       EvSession (session_maker_call sm w).1 SClose] ∧
    calls_of (session_maker_call sm w).1 SRollback
      (logged ++ [EvSession (session_maker_call sm w).1 SRollback;
                  EvSession (session_maker_call sm w).1 SClose]) = 1 ∧
    calls_of (session_maker_call sm w).1 SClose
      (logged ++ [EvSession (session_maker_call sm w).1 SRollback;
                  EvSession (session_maker_call sm w).1 SClose]) = 1 ∧
    get_session exn_str self body w
    = (match session_raises (session_maker_call sm w).1 SClose
               (trace w2 ++ logged ++
                [EvSession (session_maker_call sm w).1 SRollback]) with
       | Some e2 => Raise e2
       | None =>
           match session_raises (session_maker_call sm w).1 SRollback
                   (trace w2 ++ logged) with
           | Some e1 => Raise e1
           | None => Raise e
           end
       end, w').
Proof.
  intros Hsm Hbody. rewrite (get_session_raises_eq self sm body w w2 e Hsm Hbody).
  assert (error_log exn_str (cls_log w2) e
          = match cls_log w2 with
            | Some lg =>
                [EvLog lg ERROR
                   ("Error during leased SQL Alchemy Postgres AsyncSession, Rolling Back the tx..."
              +:+ String (ascii_of_nat 10) ("error=" +:+ exn_str e))]
            | None => []
            end) as <- by done.
  exists {| cls_log := cls_log w2;
            trace := trace w2 ++ error_log exn_str (cls_log w2) e ++
                     [EvSession (session_maker_call sm w).1 SRollback;
                      EvSession (session_maker_call sm w).1 SClose];
            next_session := next_session w2 |},
         (error_log exn_str (cls_log w2) e).
  split; [reflexivity|]. split; [reflexivity|].
  split; [|split; [|reflexivity]].
  - rewrite calls_of_app, calls_of_error_log, !calls_of_cons, calls_of_nil.
    by rewrite is_call_same, is_call_other.
  - rewrite calls_of_app, calls_of_error_log, !calls_of_cons, calls_of_nil.
    by rewrite is_call_same, is_call_other.
Qed.

(** C7: when the body of a session scope returns, the scope calls close on
    the session exactly once and calls neither rollback nor commit on it;
    the caller gets the body's value when the close returns, and the
    close's exception when it raises. *)
Theorem get_session_body_returns (self : AsyncPgWrapper) (sm : async_sessionmaker)
    (body : AsyncSession → world → result A * world) (w w2 : world) (a : A) :
  _session_maker self = Some sm →
  body (session_maker_call sm w).1 (session_maker_call sm w).2 = (Ok a, w2) →
  ∃ w' evs,
    get_session exn_str self body w
    = (match session_raises (session_maker_call sm w).1 SClose (trace w2) with
       | Some e' => Raise e'
       | None => Ok a
       end, w') ∧
    trace w' = trace w2 ++ evs ∧
    evs = [EvSession (session_maker_call sm w).1 SClose] ∧
    calls_of (session_maker_call sm w).1 SClose evs = 1 ∧
    calls_of (session_maker_call sm w).1 SRollback evs = 0 ∧
    calls_of (session_maker_call sm w).1 SCommit evs = 0.
Proof.
  intros Hsm Hbody. rewrite (get_session_returns_eq self sm body w w2 a Hsm Hbody).
  exists (emit (EvSession (session_maker_call sm w).1 SClose) w2),
         [EvSession (session_maker_call sm w).1 SClose].
  split; [reflexivity|]. split; [reflexivity|]. split; [reflexivity|].
  rewrite !calls_of_cons, !calls_of_nil.
  by rewrite is_call_same, !is_call_other.
Qed.

End SessionScope.

Lemma get_session_body_raises_witness :
  ∃ sm w2,
    @_session_maker idle_list_driver sample_inited.1 = Some sm ∧
    body_insert_fails (session_maker_call sm sample_inited.2).1
      (session_maker_call sm sample_inited.2).2
    = (Raise (OtherError "IntegrityError" "duplicate key"), w2) ∧
    ∃ w',
      trace w'
      = trace w2 ++
        [EvLog pg_log ERROR
           ("Error during leased SQL Alchemy Postgres AsyncSession, Rolling Back the tx..."
            +:+ String (ascii_of_nat 10) "error=duplicate key");
         EvSession (session_maker_call sm sample_inited.2).1 SRollback;
         EvSession (session_maker_call sm sample_inited.2).1 SClose] ∧
      get_session sample_exn_str sample_inited.1 body_insert_fails sample_inited.2
      = (Raise (OtherError "IntegrityError" "duplicate key"), w').
Proof.
  eexists _, _. split; [reflexivity|]. split; [reflexivity|].
  destruct (@get_session_body_raises idle_list_driver unit sample_exn_str
              sample_inited.1 _ body_insert_fails sample_inited.2 _
              (OtherError "IntegrityError" "duplicate key") eq_refl eq_refl)
    as (w' & logged & Hlogged & Htrace & _ & _ & Hrun).
  exists w'. split.
  - rewrite Htrace, Hlogged. reflexivity.
  - rewrite Hrun. reflexivity.
Defined.

(** On a connection that was lost the rollback raises: the session is
    still rolled back once and closed once, but what the caller sees is
    the rollback's exception, not the one the body raised. *)
Lemma get_session_rollback_raises_counterexample :
  ∃ w',
    get_session sample_exn_str sample_inited_lost.1 body_insert_fails
      sample_inited_lost.2
    = (Raise (OtherError "InterfaceError" "connection is closed"), w') ∧
    (get_session sample_exn_str sample_inited_lost.1 body_insert_fails
       sample_inited_lost.2).1
    ≠ Raise (OtherError "IntegrityError" "duplicate key") ∧
    calls_of {| session_id := 0 |} SRollback (trace w') = 1 ∧
    calls_of {| session_id := 0 |} SClose (trace w') = 1.
Proof.
  eexists. split; [reflexivity|]. split; [discriminate|]. split; reflexivity.
Qed.

Lemma get_session_body_returns_witness :
  ∃ sm w2,
    @_session_maker idle_list_driver sample_inited.1 = Some sm ∧
    body_insert_commit (session_maker_call sm sample_inited.2).1
      (session_maker_call sm sample_inited.2).2 = (Ok (), w2) ∧
    ∃ w' evs,
      get_session sample_exn_str sample_inited.1 body_insert_commit sample_inited.2
      = (Ok (), w') ∧
      trace w' = trace w2 ++ evs ∧
      evs = [EvSession (session_maker_call sm sample_inited.2).1 SClose] ∧
      calls_of (session_maker_call sm sample_inited.2).1 SClose evs = 1 ∧
      calls_of (session_maker_call sm sample_inited.2).1 SRollback evs = 0 ∧
      calls_of (session_maker_call sm sample_inited.2).1 SCommit evs = 0.
Proof.
  eexists _, _. split; [reflexivity|]. split; [reflexivity|].
  apply (@get_session_body_returns idle_list_driver); reflexivity.
Defined.

(** ** Pool life cycle *)

Section LifeCycle.
Context `{Driver}.

Lemma init_initialized (self : AsyncPgWrapper) (w : world) : initialized (init self w).1.
Proof. split; simpl; eauto. Qed.

Lemma close_session_maker (self self1 : AsyncPgWrapper) :
  close self = Ok self1 → _session_maker self1 = _session_maker self.
Proof.
  unfold close. destruct (_engine self); [|done]. by intros [= <-].
Qed.

(** C3: on a wrapper that was constructed and not initialized, the scope
    of [get_session] raises the [TypeError] of calling [None], for every
    configuration; the [RuntimeError] of the guard is never raised, and
    the body does not run. *)
Theorem get_session_before_init {A : Type} (exn_str : exn → string)
    (host : string) (port : Z) (user passwd db_name : string)
    (pool_size pool_max_overflow pool_timeout pool_recycle : Z)
    (log : option Logger) (w0 : world)
    (body : AsyncSession → world → result A * world) (w : world) :
  get_session exn_str
    (__init__ host port user passwd db_name pool_size pool_max_overflow
       pool_timeout pool_recycle log w0).1 body w
  = (Raise TypeError, w) ∧
  (get_session exn_str
    (__init__ host port user passwd db_name pool_size pool_max_overflow
       pool_timeout pool_recycle log w0).1 body w).1
  ≠ Raise (RuntimeError "SQLAlchemy Postgres async SessionMaker not inited.").
Proof.
  rewrite get_session_no_factory by done. done.
Qed.



End LifeCycle.





(** ** The class-level logger *)

Section ClassLogger.
Context `{Driver}.
Variables (host1 user1 passwd1 db_name1 host2 user2 passwd2 db_name2 : string).
Variables (port1 pool_size1 pool_max_overflow1 pool_timeout1 pool_recycle1 : Z).
Variables (port2 pool_size2 pool_max_overflow2 pool_timeout2 pool_recycle2 : Z).
Variables (log1 log2 : option Logger) (w0 : world).

(** C10: the logger given to the constructor is stored in the class
    attribute.  After a first wrapper is built with [log1] and a second
    with [log2], the class logger is [log2], whatever [log1] was, and it
    is [log2] that decides what [init] and a failing session scope of
    either wrapper log, and what the field-not-found diagnostic of any
    model logs. *)
Theorem logger_is_class_level :
  let first := __init__ host1 port1 user1 passwd1 db_name1 pool_size1
                 pool_max_overflow1 pool_timeout1 pool_recycle1 log1 w0 in
  let second := __init__ host2 port2 user2 passwd2 db_name2 pool_size2
                  pool_max_overflow2 pool_timeout2 pool_recycle2 log2 first.2 in
  cls_log first.2 = log1 ∧
  cls_log second.2 = log2 ∧
  (∀ self : AsyncPgWrapper, self = first.1 ∨ self = second.1 →
     trace (init self second.2).2
     = trace second.2 ++
       match log2 with
       | Some lg => [EvLog lg INFO "Postgres Connection Pool Created."]
       | None => []
       end ∧
     ∀ (A : Type) (exn_str : exn → string) (e : exn),
       trace (get_session (A := A) exn_str (init self second.2).1
                (λ _ w, (Raise e, w)) second.2).2
       = trace second.2 ++ error_log exn_str log2 e ++
         [EvSession {| session_id := next_session w0 |} SRollback;
          EvSession {| session_id := next_session w0 |} SClose]) ∧
  (∀ (model : Model) (field_name : string),
     trace (_log_field_not_found model field_name second.2)
     = trace second.2 ++
       match log2 with
       | Some lg => [EvLog lg DEBUG (field_not_found_msg model field_name)]
       | None => []
       end).
Proof.
  intros first second. subst first second. simpl.
  split; [done|]. split; [done|]. split.
  - intros self _. split.
    + destruct log2; simpl; [done|]. by rewrite app_nil_r.
    + intros A exn_str e.
      by erewrite get_session_raises_eq; [|reflexivity|reflexivity].
  - intros model field_name. unfold _log_field_not_found. simpl.
    destruct log2; simpl; [done|]. by rewrite app_nil_r.
Qed.

End ClassLogger.

(** A wrapper built with [pg_log], then one built with [app_log]: the
    first wrapper's [init] writes to [app_log]; had the second been built
    without a logger, it would write nothing. *)
Example logger_replaced :
  let first := @__init__ idle_list_driver "db1" 5432 "ez" "secret" "one"
                 10 10 30 1800 (Some pg_log) world0 in
  let second := @__init__ idle_list_driver "db2" 5432 "ez" "secret" "two"
                  5 0 30 1800 (Some app_log) first.2 in
  let silent := @__init__ idle_list_driver "db2" 5432 "ez" "secret" "two"
                  5 0 30 1800 None first.2 in
  trace (init first.1 second.2).2
  = [EvLog app_log INFO "Postgres Connection Pool Created."] ∧
  trace (init first.1 silent.2).2 = [].
Proof. split; reflexivity. Qed.

(** ** Serializing a model: [to_values_dict] *)

Section ToValuesDict.
Variables (self : Model) (include : list string).

Lemma getattr_mapped (key : string) :
  cls_members (cls self) !! key = Some MappedAttr → is_ok (getattr self key) = true.
Proof.
  intros Hmapped. unfold getattr. rewrite Hmapped. by destruct (attrs self !! key).
Qed.

Lemma selected_test (key : string) :
  bool_decide (key ∉ _except_fields (cls self)) || bool_decide (key ∈ include) = true
  ↔ selected self include key.
Proof.
  unfold selected. rewrite orb_true_iff, !bool_decide_eq_true. done.
Qed.


(** A selected column key under which [getattr] finds nothing stops the
    comprehension. *)
Lemma to_values_dict_from_raises (columns : list string) (acc : gmap string pyval) :
  (∃ key, key ∈ columns ∧ selected self include key ∧
          is_ok (getattr self key) = false) →
  is_ok (to_values_dict_from self include columns acc) = false.
Proof.
  revert acc. induction columns as [|key rest IH]; intros acc (k & Hin & Hsel & Hk).
  - by apply elem_of_nil in Hin.
  - cbn [to_values_dict_from].
    destruct (bool_decide (key ∉ _except_fields (cls self)) || bool_decide (key ∈ include))
      eqn:Htest.
    + destruct (getattr self key) as [v0|] eqn:Hv0; [|done].
      apply IH. exists k. split; [|done].
      apply elem_of_cons in Hin as [->|Hin]; [|done]. by rewrite Hv0 in Hk.
    + apply IH. exists k. split; [|done].
      apply elem_of_cons in Hin as [->|Hin]; [|done].
      apply selected_test in Hsel. congruence.
Qed.


End ToValuesDict.




(** The exclusion set [{"id"}]: without [include] the result omits [id],
    with [include = ["id"]] it holds it. *)
Example to_values_dict_account :
  (∃ m, to_values_dict account [] = Ok m ∧
        m !! "id" = None ∧ m !! "name" = Some (VStr "ann")) ∧
  (∃ m, to_values_dict account ["id"] = Ok m ∧
        m !! "id" = Some (VInt 7) ∧ m !! "name" = Some (VStr "ann")).
Proof.
  split; eexists; (split; [reflexivity|]); split; reflexivity.
Qed.

(** ** Dictionaries keyed by values *)

Lemma py_key_eqb_true (a b : pyval) :
  py_key_eqb a b = true ↔ ∃ x, key_of a = Some x ∧ key_of b = Some x.
Proof.
  unfold py_key_eqb.
  destruct (key_of a) as [x|], (key_of b) as [y|];
    rewrite ?bool_decide_eq_true; naive_solver.
Qed.

Lemma py_key_eqb_refl (a : pyval) : hashable a = true → py_key_eqb a a = true.
Proof.
  unfold hashable. intros Ha. apply py_key_eqb_true.
  destruct (key_of a); [eauto|done].
Qed.

Lemma py_key_eqb_trans_l (a b c : pyval) :
  py_key_eqb a b = true → py_key_eqb a c = py_key_eqb b c.
Proof.
  intros (x & Ha & Hb)%py_key_eqb_true. unfold py_key_eqb. by rewrite Ha, Hb.
Qed.

Lemma py_key_eqb_unhashable (a b : pyval) : hashable b = false → py_key_eqb a b = false.
Proof.
  unfold hashable, py_key_eqb. destruct (key_of a), (key_of b); done.
Qed.

Lemma dict_get_store {V} (d : pydict V) (k k0 : pyval) (x : V) :
  dict_get (dict_store d k x) k0
  = if py_key_eqb k k0 then Some x else dict_get d k0.
Proof.
  induction d as [|[k' x'] rest IH]; [done|].
  cbn [dict_store]. destruct (py_key_eqb k' k) eqn:Hk'.
  - cbn [dict_get]. rewrite <- (py_key_eqb_trans_l k' k k0) by done.
    by destruct (py_key_eqb k' k0).
  - cbn [dict_get]. rewrite IH.
    destruct (py_key_eqb k' k0) eqn:Hk0; [|done].
    destruct (py_key_eqb k k0) eqn:Hkk0; [|done].
    apply py_key_eqb_true in Hk0 as (y & Hy1 & Hy2).
    apply py_key_eqb_true in Hkk0 as (z & Hz1 & Hz2).
    assert (py_key_eqb k' k = true); [|congruence].
    apply py_key_eqb_true. exists y. split; [done|]. congruence.
Qed.

(** ** Indexing records: [model_list_to_dict] *)

Section ModelListToDict.
Variable id_field_name : string.

Lemma find_snoc {X} (f : X → bool) (l : list X) (x : X) :
  List.find f (l ++ [x])
  = match List.find f l with
    | Some y => Some y
    | None => if f x then Some x else None
    end.
Proof.
  induction l as [|y l IH]; simpl; [done|]. by destruct (f y).
Qed.

Lemma last_with_key_cons (k : pyval) (model : Model) (models : list Model) :
  last_with_key id_field_name k (model :: models)
  = match last_with_key id_field_name k models with
    | Some r => Some r
    | None => if has_key id_field_name k model then Some model else None
    end.
Proof. unfold last_with_key. simpl. apply find_snoc. Qed.

Lemma last_with_key_Some (k : pyval) (models : list Model) (r : Model) :
  last_with_key id_field_name k models = Some r →
  r ∈ models ∧ has_key id_field_name k r = true.
Proof.
  unfold last_with_key. intros [Hin Hk]%List.find_some. split; [|done].
  apply list_elem_of_In. by apply List.in_rev.
Qed.

Lemma last_with_key_is_Some (k : pyval) (models : list Model) (model : Model) :
  model ∈ models → has_key id_field_name k model = true →
  is_Some (last_with_key id_field_name k models).
Proof.
  intros Hin Hk. unfold last_with_key.
  destruct (List.find _ _) eqn:Hfind; [eauto|].
  apply List.find_none with (x := model) in Hfind; [congruence|].
  apply List.in_rev. rewrite rev_involutive. by apply list_elem_of_In.
Qed.

(** The loop, started from any dictionary [d], when every record can be
    indexed. *)
Lemma model_list_to_dict_from_spec (models : list Model) (d : pydict Model) :
  (∀ model, model ∈ models → indexable id_field_name model) →
  ∃ d', model_list_to_dict_from models id_field_name d = Ok d' ∧
        ∀ k, dict_get d' k
             = match last_with_key id_field_name k models with
               | Some r => Some r
               | None => dict_get d k
               end.
Proof.
  revert d. induction models as [|model rest IH]; intros d Hall.
  - by eexists.
  - destruct (Hall model) as (v & Hv & Htruthy & Hhash); [left|].
    cbn [model_list_to_dict_from]. rewrite Hv, Htruthy. cbn [negb].
    unfold dict_setitem. rewrite Hhash.
    destruct (IH (dict_store d v model)) as (d' & Hd' & Hget);
      [intros; apply Hall; by right|].
    exists d'. split; [done|]. intros k.
    rewrite Hget, last_with_key_cons, dict_get_store.
    unfold has_key. rewrite Hv.
    by destruct (last_with_key id_field_name k rest), (py_key_eqb v k).
Qed.

(** C5 (as amended): when the key field of every record is present,
    truthy and hashable, [model_list_to_dict] returns a dictionary in
    which a key is bound to the last record of the sequence whose key
    field equals it; so the key of every record is bound, to a record
    that has that key. *)
Theorem model_list_to_dict_last_wins (models : list Model) :
  (∀ model, model ∈ models → indexable id_field_name model) →
  ∃ d, model_list_to_dict models id_field_name = Ok d ∧
       (∀ k, dict_get d k = last_with_key id_field_name k models) ∧
       (∀ model v, model ∈ models → getattr model id_field_name = Ok v →
          ∃ r, dict_get d v = Some r ∧ r ∈ models ∧
               has_key id_field_name v r = true) ∧
       (∀ k r, dict_get d k = Some r →
          r ∈ models ∧ has_key id_field_name k r = true).
Proof.
  intros Hall.
  destruct (model_list_to_dict_from_spec models [] Hall) as (d & Hd & Hget).
  assert (∀ k, dict_get d k = last_with_key id_field_name k models) as Hlast.
  { intros k. rewrite Hget. by destruct (last_with_key _ _ _). }
  exists d. split; [done|]. split; [done|]. split.
  - intros model v Hin Hv.
    destruct (Hall model Hin) as (v' & Hv' & _ & Hhash).
    assert (v' = v) as -> by congruence.
    destruct (last_with_key_is_Some v models model Hin) as [r Hr].
    { unfold has_key. rewrite Hv. by apply py_key_eqb_refl. }
    exists r. rewrite Hlast. split; [done|]. by apply last_with_key_Some.
  - intros k r. rewrite Hlast. apply last_with_key_Some.
Qed.

(** Up to the first record whose key is falsy. *)
Lemma model_list_to_dict_from_falsy (pre suf : list Model) (r : Model) (v : pyval)
    (d : pydict Model) :
  (∀ model, model ∈ pre → indexable id_field_name model) →
  getattr r id_field_name = Ok v →
  truthy v = false →
  model_list_to_dict_from (pre ++ r :: suf) id_field_name d
  = Raise (DictKeyMapError (cls_name (cls r)) id_field_name).
Proof.
  revert d. induction pre as [|model rest IH]; intros d Hall Hv Hfalsy.
  - cbn. by rewrite Hv, Hfalsy.
  - destruct (Hall model) as (u & Hu & Htruthy & Hhash); [left|].
    cbn. rewrite Hu, Htruthy. cbn [negb]. unfold dict_setitem. rewrite Hhash.
    apply IH; [|done..]. intros; apply Hall; by right.
Qed.

(** A record with a falsy key is never got past. *)
Lemma model_list_to_dict_from_not_ok (pre suf : list Model) (r : Model) (v : pyval)
    (d : pydict Model) :
  getattr r id_field_name = Ok v →
  truthy v = false →
  is_ok (model_list_to_dict_from (pre ++ r :: suf) id_field_name d) = false.
Proof.
  intros Hv Hfalsy. revert d. induction pre as [|model rest IH]; intros d.
  - cbn. by rewrite Hv, Hfalsy.
  - cbn. destruct (getattr model id_field_name) as [u|]; [|done].
    destruct (truthy u); [|done]. cbn [negb].
    destruct (dict_setitem d u model); [apply IH|done].
Qed.

(** C9: a falsy key-field value makes [model_list_to_dict] raise
    [DictKeyMapError]: [None], [0], the empty string and [False] are all
    falsy; a sequence that holds a record with such a key is never
    indexed, and when the records before it can be indexed the error
    raised is the [DictKeyMapError] of that record. *)
Theorem model_list_to_dict_falsy_key (pre suf : list Model) (r : Model) (v : pyval) :
  getattr r id_field_name = Ok v →
  truthy v = false →
  (truthy VNone = false ∧ truthy (VInt 0) = false ∧
   truthy (VStr "") = false ∧ truthy (VBool false) = false) ∧
  is_ok (model_list_to_dict (pre ++ r :: suf) id_field_name) = false ∧
  ((∀ model, model ∈ pre → indexable id_field_name model) →
   model_list_to_dict (pre ++ r :: suf) id_field_name
   = Raise (DictKeyMapError (cls_name (cls r)) id_field_name)).
Proof.
  intros Hv Hfalsy. split; [done|]. split.
  - by eapply model_list_to_dict_from_not_ok.
  - intros Hall. by eapply model_list_to_dict_from_falsy.
Qed.

End ModelListToDict.

(** The records [{id:1,name:"a"}], [{id:2,name:"b"}], [{id:1,name:"c"}]
    indexed by [id]: the third replaces the first. *)
Example model_list_to_dict_example :
  model_list_to_dict [item (VInt 1) "a"; item (VInt 2) "b"; item (VInt 1) "c"] "id"
  = Ok [(VInt 1, item (VInt 1) "c"); (VInt 2, item (VInt 2) "b")].
Proof. reflexivity. Qed.

Lemma model_list_to_dict_last_wins_witness :
  (∀ model,
     model ∈ [item (VInt 1) "a"; item (VInt 2) "b"; item (VInt 1) "c"] →
     indexable "id" model) ∧
  ∃ d,
    model_list_to_dict [item (VInt 1) "a"; item (VInt 2) "b"; item (VInt 1) "c"] "id"
    = Ok d ∧
    (∀ k, dict_get d k
          = last_with_key "id" k
              [item (VInt 1) "a"; item (VInt 2) "b"; item (VInt 1) "c"]) ∧
    (∀ model v,
       model ∈ [item (VInt 1) "a"; item (VInt 2) "b"; item (VInt 1) "c"] →
       getattr model "id" = Ok v →
       ∃ r, dict_get d v = Some r ∧
            r ∈ [item (VInt 1) "a"; item (VInt 2) "b"; item (VInt 1) "c"] ∧
            has_key "id" v r = true) ∧
    (∀ k r, dict_get d k = Some r →
       r ∈ [item (VInt 1) "a"; item (VInt 2) "b"; item (VInt 1) "c"] ∧
       has_key "id" k r = true).
Proof.
  assert (Hall : ∀ model,
     model ∈ [item (VInt 1) "a"; item (VInt 2) "b"; item (VInt 1) "c"] →
     indexable "id" model).
  { intros model Hin.
    repeat (apply elem_of_cons in Hin as [->|Hin]);
      [eexists; split; [reflexivity|split; reflexivity]..|].
    by apply elem_of_nil in Hin. }
  split; [exact Hall|].
  exact (model_list_to_dict_last_wins "id" _ Hall).
Defined.

(** A key field that is present and non-empty but unhashable (a list)
    cannot be a dictionary key: [model_list_to_dict] raises [TypeError]. *)
Lemma model_list_to_dict_unhashable_counterexample :
  getattr (item (VList [VStr "a"]) "tagged") "id" = Ok (VList [VStr "a"]) ∧
  truthy (VList [VStr "a"]) = true ∧
  model_list_to_dict [item (VList [VStr "a"]) "tagged"] "id" = Raise TypeError ∧
  ¬ ∃ d, model_list_to_dict [item (VList [VStr "a"]) "tagged"] "id" = Ok d.
Proof.
  split; [reflexivity|]. split; [reflexivity|]. split; [reflexivity|].
  intros [d Hd]. discriminate Hd.
Qed.

Lemma model_list_to_dict_falsy_key_witness :
  getattr (item (VInt 0) "zero") "id" = Ok (VInt 0) ∧
  truthy (VInt 0) = false ∧
  (truthy VNone = false ∧ truthy (VInt 0) = false ∧
   truthy (VStr "") = false ∧ truthy (VBool false) = false) ∧
  is_ok (model_list_to_dict
           ([item (VInt 1) "a"] ++ item (VInt 0) "zero" :: [item (VInt 2) "b"]) "id")
  = false ∧
  ((∀ model, model ∈ [item (VInt 1) "a"] → indexable "id" model) →
   model_list_to_dict
     ([item (VInt 1) "a"] ++ item (VInt 0) "zero" :: [item (VInt 2) "b"]) "id"
   = Raise (DictKeyMapError (cls_name (cls (item (VInt 0) "zero"))) "id")).
Proof.
  split; [reflexivity|]. split; [reflexivity|].
  apply (model_list_to_dict_falsy_key "id" [item (VInt 1) "a"] [item (VInt 2) "b"]
           (item (VInt 0) "zero") (VInt 0)); reflexivity.
Defined.

(** A record whose [id] is [0], [""], [False] or unset is refused. *)
Example model_list_to_dict_falsy_examples :
  model_list_to_dict [item (VInt 0) "zero"] "id" = Raise (DictKeyMapError "Item" "id") ∧
  model_list_to_dict [item (VStr "") "empty"] "id" = Raise (DictKeyMapError "Item" "id") ∧
  model_list_to_dict [item (VBool false) "no"] "id" = Raise (DictKeyMapError "Item" "id") ∧
  model_list_to_dict [item VNone "null"] "id" = Raise (DictKeyMapError "Item" "id") ∧
  model_list_to_dict [{| cls := Item; attrs := ∅ |}] "id"
  = Raise (DictKeyMapError "Item" "id").
Proof. repeat split; reflexivity. Qed.

(** ** Populating a model: [from_dict] *)

Section FromDict.
Variables (self : Model) (strict : bool) (field_name : string) (w : world).
Hypothesis Hpublic : startswith_underscore field_name = false.
Hypothesis Hkept : field_name ∉ _except_fields (cls self).

(** A field read through [_serialize_map]: an absent key raises
    [KeyError] whatever [strict] is, and nothing is logged. *)
Lemma from_dict_field_renamed_missing (entries : gmap string pyval) (key : string) :
  _serialize_map (cls self) !! field_name = Some key →
  entries !! key = None →
  from_dict_field (VDict entries) strict field_name self w
  = (Some (KeyError key), self, w).
Proof.
  intros Hmap Hkey. unfold from_dict_field.
  rewrite Hpublic, bool_decide_eq_true_2 by done. simpl.
  by rewrite Hmap, Hkey.
Qed.

(** A field read under its own name: an absent key is logged, and raises
    only when [strict]. *)
Lemma from_dict_field_own_missing (entries : gmap string pyval) :
  _serialize_map (cls self) !! field_name = None →
  contains_dunder field_name = false →
  entries !! field_name = None →
  from_dict_field (VDict entries) strict field_name self w
  = (if strict then Some (KeyError field_name) else None, self,
     _log_field_not_found self field_name w).
Proof.
  intros Hmap Hflat Hkey. unfold from_dict_field.
  rewrite Hpublic, bool_decide_eq_true_2 by done. simpl.
  rewrite Hmap, Hflat, Hkey. simpl. by destruct strict.
Qed.

(** A nested field: a segment absent on the way is logged, and raises only
    when [strict]. *)
Lemma from_dict_field_nested_missing (d : pyval) (k : string) :
  _serialize_map (cls self) !! field_name = None →
  contains_dunder field_name = true →
  walk_nested (split_dunder field_name) d = Raise (KeyError k) →
  from_dict_field d strict field_name self w
  = (if strict then Some (KeyError k) else None, self,
     _log_field_not_found self field_name w).
Proof.
  intros Hmap Hnested Hwalk. unfold from_dict_field.
  rewrite Hpublic, bool_decide_eq_true_2 by done. simpl.
  rewrite Hmap, Hnested, Hwalk. simpl. by destruct strict.
Qed.

End FromDict.

(** C2: the field [my_id] of [Renamed] is read from the key [id].  On a
    source without [id], with [strict] false, [from_dict] raises
    [KeyError]: nothing is logged and the field [name], which comes after
    it and is in the source, is not set. *)
Theorem from_dict_renamed_key_missing :
  from_dict renamed_blank (VDict {[ "name" := VStr "n" ]}) false world_logging
  = (Some (KeyError "id"), renamed_blank, world_logging).
Proof. reflexivity. Qed.

(** The same source, once the rename map is out of the way: [name] is set
    and the absent field is only logged. *)
Example from_dict_own_name_missing :
  from_dict {| cls := Item; attrs := ∅ |} (VDict {[ "name" := VStr "n" ]}) false
    world_logging
  = (None,
     {| cls := Item; attrs := {[ "name" := VStr "n" ]} |},
     emit (EvLog pg_log DEBUG "SqlAlchemy Model 'Item' field 'id' not found.")
       world_logging).
Proof. reflexivity. Qed.

(** Fields [a], [b] and [address__city] on the source [{"a": 1}]. *)
Example from_dict_lenient :
  from_dict nested_blank (VDict {[ "a" := VInt 1 ]}) false world_logging
  = (None,
     {| cls := Nested; attrs := {[ "a" := VInt 1 ]} |},
     emit (EvLog pg_log DEBUG "SqlAlchemy Model 'Nested' field 'address__city' not found.")
       (emit (EvLog pg_log DEBUG "SqlAlchemy Model 'Nested' field 'b' not found.")
          world_logging)).
Proof. reflexivity. Qed.

Example from_dict_strict :
  from_dict nested_blank (VDict {[ "a" := VInt 1 ]}) true world_logging
  = (Some (KeyError "b"),
     {| cls := Nested; attrs := {[ "a" := VInt 1 ]} |},
     emit (EvLog pg_log DEBUG "SqlAlchemy Model 'Nested' field 'b' not found.")
       world_logging).
Proof. reflexivity. Qed.

Example from_dict_nested_path :
  (from_dict nested_blank
     (VDict {[ "a" := VInt 1; "b" := VInt 2;
               "address" := VDict {[ "city" := VStr "X" ]} ]}) true world_logging).1
  = (None,
     {| cls := Nested;
        attrs := {[ "a" := VInt 1; "b" := VInt 2; "address__city" := VStr "X" ]} |}).
Proof. reflexivity. Qed.

(** * Further properties *)

(** ** The connection string and the life cycle of the engine *)

Lemma string_append_assoc (s1 s2 s3 : string) :
  (s1 +:+ s2) +:+ s3 = s1 +:+ (s2 +:+ s3).
Proof.
  induction s1 as [|a s1 IH]; [done|].
  change (String a ((s1 +:+ s2) +:+ s3) = String a (s1 +:+ (s2 +:+ s3))).
  by rewrite IH.
Qed.

(** [_mk_conn_str] escapes nothing: a colon at the end of the user name and
    a colon at the start of the password give the same connection string,
    so the string does not determine the credentials. *)
Theorem _mk_conn_str_no_escaping `{Driver} (host : string) (port : Z)
    (db_name : string) (pool_size pool_max_overflow pool_timeout pool_recycle : Z)
    (log : option Logger) (w : world) (u a b : string) :
  _mk_conn_str
    (__init__ host port (u +:+ ":" +:+ a) b db_name pool_size pool_max_overflow
       pool_timeout pool_recycle log w).1
  = _mk_conn_str
      (__init__ host port u (a +:+ ":" +:+ b) db_name pool_size pool_max_overflow
         pool_timeout pool_recycle log w).1.
Proof.
  unfold _mk_conn_str. simpl. by rewrite !string_append_assoc.
Qed.

(** [close] needs an engine: on a wrapper that was only constructed it
    raises [AttributeError].  After [init] it returns, and an [init] that
    follows builds the very wrapper the first [init] built: [close] leaves
    nothing behind that [init] depends on. *)
Theorem close_and_init_again `{Driver} (host : string) (port : Z)
    (user passwd db_name : string)
    (pool_size pool_max_overflow pool_timeout pool_recycle : Z)
    (log : option Logger) (w0 w1 w2 : world) :
  let self := (__init__ host port user passwd db_name pool_size pool_max_overflow
                 pool_timeout pool_recycle log w0).1 in
  close self = Raise AttributeError ∧
  ∃ self1, close (init self w1).1 = Ok self1 ∧
           (init self1 w2).1 = (init self w1).1.
Proof.
  intros self. split; [done|]. eexists. split; [done|]. done.
Qed.

(** ** Nested session scopes *)

(** A scope opened inside the body of another leases a different session.
    When the inner body raises [e] and the driver's rollback and close
    calls return, the inner session is rolled back and closed, then the
    outer one, each scope logs the message that ends with [str(e)] if the
    class logger is set, and [e] reaches the caller of the outer scope. *)
Theorem nested_scopes_unwind `{Driver} {A : Type} (exn_str : exn → string)
    (outer inner : AsyncPgWrapper) (sm1 sm2 : async_sessionmaker)
    (body : AsyncSession → AsyncSession → world → result A * world)
    (w w2 : world) (e : exn) :
  (∀ s c tr, session_raises s c tr = None) →
  _session_maker outer = Some sm1 →
  _session_maker inner = Some sm2 →
  body {| session_id := next_session w |} {| session_id := S (next_session w) |}
    {| cls_log := cls_log w; trace := trace w;
       next_session := S (S (next_session w)) |} = (Raise e, w2) →
  ∃ w' logged,
    logged
    = match cls_log w2 with
      | Some lg =>
          [EvLog lg ERROR
             ("Error during leased SQL Alchemy Postgres AsyncSession, Rolling Back the tx..."
            +:+ String (ascii_of_nat 10) ("error=" +:+ exn_str e))]
      | None => []
      end ∧
    get_session exn_str outer (λ s1, get_session exn_str inner (body s1)) w
    = (Raise e, w') ∧
    trace w'
    = trace w2 ++
      logged ++
      [EvSession {| session_id := S (next_session w) |} SRollback;
       EvSession {| session_id := S (next_session w) |} SClose] ++
      logged ++
      [EvSession {| session_id := next_session w |} SRollback;
       EvSession {| session_id := next_session w |} SClose] ∧
    {| session_id := next_session w |} ≠ {| session_id := S (next_session w) |}.
Proof.
  intros Hdrv Hsm1 Hsm2 Hbody.
  assert (get_session exn_str inner (body {| session_id := next_session w |})
            {| cls_log := cls_log w; trace := trace w;
               next_session := S (next_session w) |}
          = (Raise e,
             {| cls_log := cls_log w2;
                trace := trace w2 ++ error_log exn_str (cls_log w2) e ++
                         [EvSession {| session_id := S (next_session w) |} SRollback;
                          EvSession {| session_id := S (next_session w) |} SClose];
                next_session := next_session w2 |})) as Hinner.
  { erewrite get_session_raises_eq; [|done|exact Hbody].
    by rewrite !Hdrv. }
  erewrite get_session_raises_eq; [|done|exact Hinner].
  rewrite !Hdrv. eexists _, _. split; [reflexivity|]. split; [reflexivity|].
  split.
  - simpl. by rewrite <- !app_assoc.
  - intros [= Heq]. lia.
Qed.

Lemma nested_scopes_unwind_witness :
  ∃ sm1 sm2 w2 w',
    (∀ s c tr, @session_raises idle_list_driver s c tr = None) ∧
    @_session_maker idle_list_driver sample_inited.1 = Some sm1 ∧
    @_session_maker idle_list_driver sample_inited.1 = Some sm2 ∧
    (λ _ : AsyncSession, body_insert_fails)
      {| session_id := next_session sample_inited.2 |}
      {| session_id := S (next_session sample_inited.2) |}
      {| cls_log := cls_log sample_inited.2; trace := trace sample_inited.2;
         next_session := S (S (next_session sample_inited.2)) |}
    = (Raise (OtherError "IntegrityError" "duplicate key"), w2) ∧
    get_session sample_exn_str sample_inited.1
      (λ s1, get_session sample_exn_str sample_inited.1
               ((λ _ : AsyncSession, body_insert_fails) s1)) sample_inited.2
    = (Raise (OtherError "IntegrityError" "duplicate key"), w') ∧
    calls_of {| session_id := 0 |} SRollback (trace w') = 1 ∧
    calls_of {| session_id := 1 |} SRollback (trace w') = 1.
Proof.
  destruct (@nested_scopes_unwind idle_list_driver unit sample_exn_str
              sample_inited.1 sample_inited.1 _ _
              (λ _ : AsyncSession, body_insert_fails) sample_inited.2 _
              (OtherError "IntegrityError" "duplicate key")
              (λ _ _ _, eq_refl) eq_refl eq_refl eq_refl)
    as (w' & logged & Hlogged & Hrun & Htrace & _).
  eexists _, _, _, w'. split; [reflexivity|]. split; [reflexivity|].
  split; [reflexivity|]. split; [reflexivity|]. split; [exact Hrun|].
  rewrite Htrace, Hlogged. split; reflexivity.
Defined.

(** ** The singleton *)

(** [PgSessionSingleton.get_session] raises [RuntimeError] while no
    instance was constructed, without running the body; after two
    constructions it is the scope of the wrapper of the second, so when
    that wrapper has no session factory yet it raises [TypeError]. *)
Theorem singleton_delegates_to_last `{Driver} {A : Type} (exn_str : exn → string)
    (body : AsyncSession → world → result A * world) (w : world)
    (first second : AsyncPgWrapper) (_instance : option PgSessionSingleton) :
  PgSessionSingleton_get_session exn_str None body w
  = (Raise (RuntimeError
              "Unable to access singleton instance, PgSessionWrapper not initialized."),
     w) ∧
  PgSessionSingleton_get_session exn_str
    (PgSessionSingleton__init__ second
       (PgSessionSingleton__init__ first _instance).2).2 body w
  = get_session exn_str second body w ∧
  (_session_maker second = None →
   PgSessionSingleton_get_session exn_str
     (PgSessionSingleton__init__ second
        (PgSessionSingleton__init__ first _instance).2).2 body w
   = (Raise TypeError, w)).
Proof.
  split; [done|]. split; [done|]. intros Hsm. simpl.
  by apply get_session_no_factory.
Qed.

(** ** More on [from_dict] *)


Lemma setattr_Raise_inv (self : Model) (name : string) (v : pyval) (e : exn) :
  setattr self name v = Raise e →
  e = AttributeError ∧ read_only (cls self) name = true.
Proof.
  unfold setattr, read_only.
  destruct (cls_members (cls self) !! name) as [[]|]; by intros [= <-].
Qed.



(** One iteration, in terms of the value it looks up: a field that is not
    eligible is skipped; a value found is set, unless the field is a
    property without a setter; a [KeyError] on a field that is not renamed
    is logged and raised only when [strict]; every other exception leaves
    the loop as it is. *)
Lemma from_dict_field_eq (d : pyval) (strict : bool) (field_name : string)
    (self : Model) (w : world) :
  from_dict_field d strict field_name self w
  = if eligible (cls self) field_name then
      match source_value (cls self) d field_name with
      | Ok v =>
          match setattr self field_name v with
          | Ok self' => (None, self', w)
          | Raise e => (Some e, self, w)
          end
      | Raise e =>
          match e, _serialize_map (cls self) !! field_name with
          | KeyError k, None =>
              (if strict then Some (KeyError k) else None, self,
               _log_field_not_found self field_name w)
          | _, _ => (Some e, self, w)
          end
      end
    else (None, self, w).
Proof.
  unfold from_dict_field, eligible, source_value, set_looked_up.
  destruct (negb (startswith_underscore field_name)
            && bool_decide (field_name ∉ _except_fields (cls self))); [|done].
  destruct (_serialize_map (cls self) !! field_name) as [key|].
  - destruct (py_getitem d key) as [v|[]]; done.
  - destruct (negb (contains_dunder field_name)).
    + destruct (py_getitem d field_name) as [v|[]]; try done.
      * destruct (setattr self field_name v) as [self'|e] eqn:Hv; [done|].
        by apply setattr_Raise_inv in Hv as [-> _].
      * by destruct strict.
    + destruct (walk_nested (split_dunder field_name) d) as [v|[]]; try done.
      * destruct (setattr self field_name v) as [self'|e] eqn:Hv; [done|].
        by apply setattr_Raise_inv in Hv as [-> _].
      * by destruct strict.
Qed.


Lemma py_getitem_not_dict (f : pyval) (k : string) :
  (∀ entries, f ≠ VDict entries) → py_getitem f k = Raise TypeError.
Proof. intros Hf. destruct f; try done. by destruct (Hf entries). Qed.



Lemma split_dunder_from_cons (acc s : string) :
  ∃ seg rest, split_dunder_from acc s = seg :: rest.
Proof.
  revert acc. induction s as [|c s IH]; intros acc; simpl; [eauto|].
  destruct (Ascii.ascii_dec c "_") as [->|Hc].
  - destruct s as [|c' s']; [apply IH|].
    destruct (Ascii.ascii_dec c' "_") as [->|Hc']; [eauto|].
    assert (∀ X (x y : X),
              match c' with
              | "_"%char => x
              | _ => y
              end = y) as Hmatch.
    { intros X x y.
      destruct c' as [[] [] [] [] [] [] [] []]; try reflexivity. by destruct Hc'. }
    rewrite Hmatch. apply IH.
  - assert (∀ X (x y : X),
              match c with
              | "_"%char => x
              | _ => y
              end = y) as Hmatch.
    { intros X x y.
      destruct c as [[] [] [] [] [] [] [] []]; try reflexivity. by destruct Hc. }
    destruct s; rewrite ?Hmatch; apply IH.
Qed.

Lemma source_value_not_dict (c : model_class) (d : pyval) (field_name : string) :
  (∀ entries, d ≠ VDict entries) → source_value c d field_name = Raise TypeError.
Proof.
  intros Hd. unfold source_value. destruct (_serialize_map c !! field_name).
  - by apply py_getitem_not_dict.
  - destruct (negb (contains_dunder field_name)); [by apply py_getitem_not_dict|].
    unfold split_dunder.
    destruct (split_dunder_from_cons "" field_name) as (seg & rest & ->).
    simpl. by rewrite py_getitem_not_dict.
Qed.

Section FromDictLoop.
Variables (d : pyval) (strict : bool).




(** A source that is not a dictionary stops the loop at the first eligible
    field. *)
Lemma from_dict_fields_not_dict (fields : list string) (self : Model) (w : world) :
  (∀ entries, d ≠ VDict entries) →
  (∃ f, f ∈ fields ∧ eligible (cls self) f = true) →
  from_dict_fields fields d strict self w = (Some TypeError, self, w).
Proof.
  intros Hd. induction fields as [|f rest IH]; intros (f0 & Hin & Hel).
  - by apply elem_of_nil in Hin.
  - cbn [from_dict_fields]. rewrite from_dict_field_eq.
    destruct (eligible (cls self) f) eqn:Hf.
    + by rewrite source_value_not_dict.
    + apply IH. exists f0. split; [|done].
      apply elem_of_cons in Hin as [->|Hin]; [congruence|done].
Qed.

End FromDictLoop.






(** The three ways out, with [strict] false and no rename map: all keys
    absent, a nested path through a number, a property without a setter. *)
Example from_dict_no_key_error_outcomes :
  (from_dict nested_blank (VDict ∅) false world_logging).1.1 = None ∧
  (from_dict nested_blank (VDict {[ "address" := VInt 3 ]}) false world_logging).1.1
  = Some TypeError ∧
  from_dict labelled_blank (VDict {[ "name" := VStr "n"; "label" := VStr "l" ]}) false
    world_logging
  = (Some AttributeError, {| cls := Labelled; attrs := {[ "name" := VStr "n" ]} |},
     world_logging).
Proof. repeat split; reflexivity. Qed.



(** A source that is not a dictionary: when the class has an eligible
    field, [from_dict] raises [TypeError] whatever [strict] is, logs
    nothing and sets nothing. *)
Theorem from_dict_source_not_dict (self : Model) (d : pyval) (strict : bool)
    (w : world) :
  (∀ entries, d ≠ VDict entries) →
  (∃ f, f ∈ cls_dict_keys (cls self) ∧ eligible (cls self) f = true) →
  from_dict self d strict w = (Some TypeError, self, w).
Proof. apply from_dict_fields_not_dict. Qed.

Lemma from_dict_source_not_dict_witness :
  (∀ entries, VList [VInt 1] ≠ VDict entries) ∧
  (∃ f, f ∈ cls_dict_keys (cls nested_blank) ∧ eligible (cls nested_blank) f = true) ∧
  from_dict nested_blank (VList [VInt 1]) false world_logging
  = (Some TypeError, nested_blank, world_logging).
Proof.
  assert (Hd : ∀ entries, VList [VInt 1] ≠ VDict entries) by discriminate.
  assert (Hf : ∃ f, f ∈ cls_dict_keys (cls nested_blank) ∧
                    eligible (cls nested_blank) f = true).
  { exists "a". split; [|reflexivity]. simpl. do 2 right. by left. }
  split; [exact Hd|]. split; [exact Hf|].
  exact (from_dict_source_not_dict nested_blank (VList [VInt 1]) false
           world_logging Hd Hf).
Defined.





(** ** More on [to_values_dict] *)



(** Without that, the result is not monotone: with [id] excepted and not
    the name of an attribute, [to_values_dict] returns for an empty
    [include] and raises once [id] is included. *)
Example to_values_dict_not_monotone :
  (∃ m, to_values_dict legacy [] = Ok m ∧ m !! "name" = Some (VStr "ann")) ∧
  to_values_dict legacy ["id"] = Raise AttributeError.
Proof. split; [eexists; split; reflexivity|reflexivity]. Qed.

(** ** More on [model_list_to_dict] *)

Section ModelListToDictMore.
Variable id_field_name : string.

(** Records that can be indexed are got past. *)
Lemma model_list_to_dict_from_prefix (pre rest : list Model) (d : pydict Model) :
  (∀ model, model ∈ pre → indexable id_field_name model) →
  ∃ d', model_list_to_dict_from (pre ++ rest) id_field_name d
        = model_list_to_dict_from rest id_field_name d'.
Proof.
  revert d. induction pre as [|model pre IH]; intros d Hall; [by eexists|].
  destruct (Hall model) as (u & Hu & Htruthy & Hhash); [left|].
  cbn. rewrite Hu, Htruthy. cbn [negb]. unfold dict_setitem. rewrite Hhash.
  apply IH. intros; apply Hall; by right.
Qed.

(** A record on which attribute lookup finds nothing under
    [id_field_name], neither on the instance nor on its class, makes
    [model_list_to_dict] raise [AttributeError], not [DictKeyMapError]. *)
Theorem model_list_to_dict_missing_attribute (pre suf : list Model) (r : Model) :
  (∀ model, model ∈ pre → indexable id_field_name model) →
  attrs r !! id_field_name = None →
  cls_members (cls r) !! id_field_name = None →
  model_list_to_dict (pre ++ r :: suf) id_field_name = Raise AttributeError.
Proof.
  intros Hall Hattr Hcls. unfold model_list_to_dict.
  destruct (model_list_to_dict_from_prefix pre (r :: suf) [] Hall) as [d' ->].
  cbn. unfold getattr. by rewrite Hcls, Hattr.
Qed.

(** A record whose key is truthy but unhashable makes
    [model_list_to_dict] raise [TypeError]. *)
Theorem model_list_to_dict_unhashable_key (pre suf : list Model) (r : Model) (v : pyval) :
  (∀ model, model ∈ pre → indexable id_field_name model) →
  getattr r id_field_name = Ok v →
  truthy v = true →
  hashable v = false →
  model_list_to_dict (pre ++ r :: suf) id_field_name = Raise TypeError.
Proof.
  intros Hall Hv Htruthy Hhash. unfold model_list_to_dict.
  destruct (model_list_to_dict_from_prefix pre (r :: suf) [] Hall) as [d' ->].
  cbn. rewrite Hv, Htruthy. cbn [negb]. unfold dict_setitem. by rewrite Hhash.
Qed.

Lemma py_key_eqb_sym (a b : pyval) : py_key_eqb a b = py_key_eqb b a.
Proof.
  unfold py_key_eqb. destruct (key_of a) as [x|], (key_of b) as [y|]; try done.
  apply bool_decide_ext. naive_solver.
Qed.

Lemma dict_store_length {V} (d : pydict V) (k : pyval) (x : V) :
  dict_get d k = None → length (dict_store d k x) = S (length d).
Proof.
  induction d as [|[k' x'] rest IH]; [done|]. cbn [dict_get dict_store].
  destruct (py_key_eqb k' k); [done|]. intros Hrest. cbn [length]. by rewrite IH.
Qed.

Lemma last_with_key_None (k : pyval) (models : list Model) :
  (∀ r, r ∈ models → has_key id_field_name k r = false) →
  last_with_key id_field_name k models = None.
Proof.
  intros Hall. unfold last_with_key.
  destruct (List.find _ _) as [r|] eqn:Hfind; [|done].
  apply List.find_some in Hfind as [Hin Hk].
  rewrite Hall in Hk; [done|]. apply list_elem_of_In. by apply List.in_rev.
Qed.

Lemma distinct_keys_cons (model : Model) (rest : list Model) (v : pyval) :
  distinct_keys id_field_name (model :: rest) = true →
  getattr model id_field_name = Ok v →
  (∀ r, r ∈ rest → has_key id_field_name v r = false) ∧
  distinct_keys id_field_name rest = true.
Proof.
  cbn [distinct_keys]. intros [Hhead Hrest]%andb_true_iff Hv. rewrite Hv in Hhead.
  split; [|done]. intros r Hin.
  rewrite forallb_forall in Hhead. apply negb_true_iff, Hhead.
  by apply list_elem_of_In.
Qed.

Lemma last_with_key_distinct (models : list Model) (model : Model) (v : pyval) :
  distinct_keys id_field_name models = true →
  (∀ r, r ∈ models → indexable id_field_name r) →
  model ∈ models →
  getattr model id_field_name = Ok v →
  last_with_key id_field_name v models = Some model.
Proof.
  induction models as [|m rest IH]; intros Hdist Hall Hin Hv.
  - by apply elem_of_nil in Hin.
  - rewrite last_with_key_cons.
    destruct (Hall m) as (u & Hu & _ & Hhash); [left|].
    destruct (distinct_keys_cons m rest u Hdist Hu) as [Hothers Hrest].
    apply elem_of_cons in Hin as [->|Hin'].
    + assert (u = v) as -> by congruence.
      rewrite last_with_key_None by done.
      unfold has_key. rewrite Hv. by rewrite py_key_eqb_refl.
    + rewrite IH; [done|done| |done|done]. intros; apply Hall; by right.
Qed.

Lemma model_list_to_dict_from_length (models : list Model) (d d' : pydict Model) :
  distinct_keys id_field_name models = true →
  (∀ r v, r ∈ models → getattr r id_field_name = Ok v → dict_get d v = None) →
  model_list_to_dict_from models id_field_name d = Ok d' →
  length d' = length d + length models.
Proof.
  revert d. induction models as [|m rest IH]; intros d Hdist Hfresh.
  - intros [= <-]. simpl. lia.
  - cbn [model_list_to_dict_from].
    destruct (getattr m id_field_name) as [u|] eqn:Hu; [|done].
    destruct (negb (truthy u)); [done|].
    unfold dict_setitem. destruct (hashable u); [|done].
    destruct (distinct_keys_cons m rest u Hdist Hu) as [Hothers Hrest].
    intros Hrun. apply IH in Hrun; [|done|].
    + rewrite Hrun, dict_store_length; [cbn [length]; lia|].
      eapply Hfresh; [by left|done].
    + intros r v Hin Hv. rewrite dict_get_store.
      specialize (Hothers r Hin). unfold has_key in Hothers. rewrite Hv in Hothers.
      rewrite py_key_eqb_sym, Hothers. eapply Hfresh; [by right|done].
Qed.

(** When the keys of the records are pairwise different, the dictionary
    has one entry for each record and every record is found under its own
    key. *)
Theorem model_list_to_dict_distinct_keys (models : list Model) :
  (∀ model, model ∈ models → indexable id_field_name model) →
  distinct_keys id_field_name models = true →
  ∃ d, model_list_to_dict models id_field_name = Ok d ∧
       length d = length models ∧
       ∀ model v, model ∈ models → getattr model id_field_name = Ok v →
                  dict_get d v = Some model.
Proof.
  intros Hall Hdist.
  destruct (model_list_to_dict_from_spec id_field_name models [] Hall)
    as (d & Hd & Hget).
  exists d. split; [done|]. split.
  - by apply (model_list_to_dict_from_length models [] d).
  - intros model v Hin Hv. rewrite Hget.
    by rewrite (last_with_key_distinct models model v).
Qed.

End ModelListToDictMore.

Lemma model_list_to_dict_missing_attribute_witness :
  (∀ model, model ∈ ([] : list Model) → indexable "sku" model) ∧
  attrs (item (VInt 1) "a") !! "sku" = None ∧
  cls_members (cls (item (VInt 1) "a")) !! "sku" = None ∧
  model_list_to_dict ([] ++ item (VInt 1) "a" :: [item (VInt 2) "b"]) "sku"
  = Raise AttributeError.
Proof.
  assert (Hall : ∀ model, model ∈ ([] : list Model) → indexable "sku" model).
  { intros model Hin. by apply elem_of_nil in Hin. }
  split; [exact Hall|]. split; [reflexivity|]. split; [reflexivity|].
  exact (model_list_to_dict_missing_attribute "sku" [] [item (VInt 2) "b"]
           (item (VInt 1) "a") Hall eq_refl eq_refl).
Defined.

(** A name that lookup finds on the class is no missing attribute:
    indexed by [__tablename__] the record is filed under the table name,
    and by [_except_fields], an empty list here, it is refused. *)
Example model_list_to_dict_class_attribute :
  model_list_to_dict [item (VInt 1) "a"] "__tablename__"
  = Ok [(VStr "item", item (VInt 1) "a")] ∧
  model_list_to_dict [item (VInt 1) "a"] "_except_fields"
  = Raise (DictKeyMapError "Item" "_except_fields").
Proof. split; reflexivity. Qed.

Lemma model_list_to_dict_unhashable_key_witness :
  (∀ model, model ∈ [item (VInt 1) "a"] → indexable "id" model) ∧
  getattr (item (VDict {[ "k" := VInt 1 ]}) "b") "id" = Ok (VDict {[ "k" := VInt 1 ]}) ∧
  truthy (VDict {[ "k" := VInt 1 ]}) = true ∧
  hashable (VDict {[ "k" := VInt 1 ]}) = false ∧
  model_list_to_dict
    ([item (VInt 1) "a"] ++ item (VDict {[ "k" := VInt 1 ]}) "b" :: []) "id"
  = Raise TypeError.
Proof.
  assert (Hall : ∀ model, model ∈ [item (VInt 1) "a"] → indexable "id" model).
  { intros model Hin. apply elem_of_cons in Hin as [->|Hin].
    - eexists; split; [reflexivity|split; reflexivity].
    - by apply elem_of_nil in Hin. }
  split; [exact Hall|]. split; [reflexivity|]. split; [reflexivity|].
  split; [reflexivity|].
  exact (model_list_to_dict_unhashable_key "id" [item (VInt 1) "a"] []
           (item (VDict {[ "k" := VInt 1 ]}) "b") _ Hall eq_refl eq_refl eq_refl).
Defined.

Lemma model_list_to_dict_distinct_keys_witness :
  (∀ model, model ∈ [item (VInt 1) "a"; item (VStr "x") "b"] → indexable "id" model) ∧
  distinct_keys "id" [item (VInt 1) "a"; item (VStr "x") "b"] = true ∧
  ∃ d, model_list_to_dict [item (VInt 1) "a"; item (VStr "x") "b"] "id" = Ok d ∧
       length d = length [item (VInt 1) "a"; item (VStr "x") "b"] ∧
       ∀ model v, model ∈ [item (VInt 1) "a"; item (VStr "x") "b"] →
                  getattr model "id" = Ok v → dict_get d v = Some model.
Proof.
  assert (Hall : ∀ model,
            model ∈ [item (VInt 1) "a"; item (VStr "x") "b"] → indexable "id" model).
  { intros model Hin.
    repeat (apply elem_of_cons in Hin as [->|Hin]);
      [eexists; split; [reflexivity|split; reflexivity]..|].
    by apply elem_of_nil in Hin. }
  split; [exact Hall|]. split; [reflexivity|].
  exact (model_list_to_dict_distinct_keys "id" _ Hall eq_refl).
Defined.

(** ** [mapping_result_to_list] *)

Lemma mapping_result_to_list_from_ok (rows : list (gmap string Model))
    (model_cls_name : string) (ret ms : list Model) :
  mapping_result_to_list_from rows model_cls_name ret = Ok ms
  ↔ ∃ vals, ms = ret ++ vals ∧
            Forall2 (λ row model, row !! model_cls_name = Some model) rows vals.
Proof.
  revert ret. induction rows as [|item rest IH]; intros ret; cbn.
  - split.
    + intros [= <-]. exists []. by rewrite app_nil_r.
    + intros (vals & -> & ->%Forall2_nil_inv_l). by rewrite app_nil_r.
  - destruct (item !! model_cls_name) as [model|] eqn:Hitem.
    + rewrite IH. split.
      * intros (vals & -> & Hvals). exists (model :: vals).
        rewrite <- app_assoc. split; [done|]. by constructor.
      * intros (vals & -> & Hvals).
        apply Forall2_cons_inv_l in Hvals as (model' & vals' & Hm & Hvals' & ->).
        exists vals'. rewrite <- app_assoc. split; [|done].
        by assert (model' = model) as -> by congruence.
    + split; [done|]. intros (vals & _ & Hvals).
      apply Forall2_cons_inv_l in Hvals as (model' & vals' & Hm & _). congruence.
Qed.

Lemma mapping_result_to_list_from_missing (rows : list (gmap string Model))
    (model_cls_name : string) (ret : list Model) :
  (∃ row, row ∈ rows ∧ row !! model_cls_name = None) →
  mapping_result_to_list_from rows model_cls_name ret = Raise (KeyError model_cls_name).
Proof.
  revert ret. induction rows as [|item rest IH]; intros ret (row & Hin & Hrow).
  - by apply elem_of_nil in Hin.
  - cbn. destruct (item !! model_cls_name) as [model|] eqn:Hitem; [|done].
    apply IH. exists row. split; [|done].
    apply elem_of_cons in Hin as [->|Hin]; [congruence|done].
Qed.

(** [mapping_result_to_list] returns the values the rows hold under
    [model_cls_name], one for each row and in row order; it returns only
    when every row has the name, and a row without it raises [KeyError]. *)
Theorem mapping_result_to_list_spec (rows : list (gmap string Model))
    (model_cls_name : string) :
  (∀ ms, mapping_result_to_list rows model_cls_name = Ok ms
         ↔ Forall2 (λ row model, row !! model_cls_name = Some model) rows ms) ∧
  ((∃ row, row ∈ rows ∧ row !! model_cls_name = None) →
   mapping_result_to_list rows model_cls_name = Raise (KeyError model_cls_name)).
Proof.
  split.
  - intros ms. unfold mapping_result_to_list.
    rewrite mapping_result_to_list_from_ok. simpl. naive_solver.
  - apply mapping_result_to_list_from_missing.
Qed.

(** ** The event dispatcher *)


Lemma register_listener_one_each (self : EventDispatcher) (event : string)
    (cb : callback) (tr : list dispatcher_event) :
  one_listener_each self → one_listener_each (register_listener self event cb tr).1.
Proof.
  intros Hinv. unfold register_listener.
  destruct (_listeners self !! event) as [s|] eqn:Hs.
  - destruct (bool_decide (cb ∈ s)); [destruct (_log self)|]; done.
  - intros event' s'. simpl. rewrite lookup_insert.
    destruct (decide (event = event')) as [->|Hne]; [|apply Hinv].
    intros [= <-]. apply size_singleton.
Qed.

Lemma unregister_listener_one_each (self : EventDispatcher) (event : string)
    (cb : callback) (tr : list dispatcher_event) :
  one_listener_each self → one_listener_each (unregister_listener self event cb tr).1.
Proof.
  intros Hinv. unfold unregister_listener.
  destruct (_listeners self !! event) as [s|] eqn:Hs; [|done].
  destruct (bool_decide (cb ∈ s)) eqn:Hcb; [|done].
  apply bool_decide_eq_true in Hcb.
  assert (size (s ∖ {[cb]}) = 0) as Hsize.
  { rewrite size_difference by set_solver.
    rewrite (Hinv event s Hs), size_singleton. done. }
  rewrite bool_decide_eq_true_2 by done.
  intros event' s'. simpl. rewrite lookup_delete.
  destruct (decide (event = event')); [done|apply Hinv].
Qed.

Lemma foldl_apply_op_one_each (ops : list listener_op)
    (st : EventDispatcher * list dispatcher_event) :
  one_listener_each st.1 → one_listener_each (foldl apply_op st ops).1.
Proof.
  revert st. induction ops as [|op ops IH]; intros st Hinv; [done|].
  simpl. apply IH. destruct op; simpl.
  - by apply register_listener_one_each.
  - by apply unregister_listener_one_each.
Qed.

Lemma run_ops_one_each (log : option Logger) (ops : list listener_op) :
  one_listener_each (run_ops log ops).1.
Proof.
  apply foldl_apply_op_one_each. intros event s. simpl. by rewrite lookup_empty.
Qed.

Lemma num_listeners_one_each (self : EventDispatcher) :
  one_listener_each self → num_listeners self = size (_listeners self).
Proof.
  unfold one_listener_each, num_listeners.
  apply (map_fold_weak_ind
           (λ n (m : gmap string (gset callback)),
              (∀ event s, m !! event = Some s → size s = 1) → n = size m)).
  - intros _. by rewrite map_size_empty.
  - intros event s m n Hfresh IH Hinv.
    rewrite map_size_insert_None by done.
    rewrite (Hinv event s) by apply lookup_insert_eq.
    rewrite IH; [lia|].
    intros event' s' Hs'. apply (Hinv event' s').
    rewrite lookup_insert_ne; [done|]. intros <-. congruence.
Qed.

(** However listeners were registered and removed, an event has at most
    one listener, so [num_listeners] is the number of events that have
    one. *)
Theorem dispatcher_one_listener_per_event (log : option Logger) (ops : list listener_op) :
  one_listener_each (run_ops log ops).1 ∧
  num_listeners (run_ops log ops).1 = size (_listeners (run_ops log ops).1).
Proof.
  split; [apply run_ops_one_each|].
  apply num_listeners_one_each, run_ops_one_each.
Qed.

(** Dispatching after any registrations and removals: an event without a
    listener raises [AttributeError]; otherwise its one listener is called
    once, with the arguments given; the "no registered listeners" entry is
    never logged. *)
Theorem dispatch_event_reachable (log : option Logger) (ops : list listener_op)
    (event : string) (args : list pyval) (kwargs : list (string * pyval))
    (tr : list dispatcher_event) :
  match _listeners (run_ops log ops).1 !! event with
  | None =>
      dispatch_event (run_ops log ops).1 event args kwargs tr
      = (Raise AttributeError, tr)
  | Some s =>
      ∃ cb, s = {[cb]} ∧
            dispatch_event (run_ops log ops).1 event args kwargs tr
            = (Ok (), tr ++ [DCall cb args kwargs])
  end.
Proof.
  pose proof (run_ops_one_each log ops) as Hinv.
  unfold dispatch_event.
  destruct (_listeners (run_ops log ops).1 !! event) as [s|] eqn:Hs; [|done].
  apply Hinv in Hs. apply size_1_elem_of in Hs as [cb Hcb].
  apply leibniz_equiv in Hcb. subst s. exists cb. split; [done|].
  rewrite bool_decide_eq_true_2 by set_solver.
  by rewrite elements_singleton.
Qed.

(** A second listener for an event is dropped without a word: after
    [cb1] is registered for an event that had none, registering another
    callback [cb2] changes nothing and logs nothing, and the event is
    dispatched to [cb1] only. *)
Theorem second_listener_dropped (self : EventDispatcher) (event : string)
    (cb1 cb2 : callback) (args : list pyval) (kwargs : list (string * pyval))
    (tr : list dispatcher_event) :
  _listeners self !! event = None →
  cb1 ≠ cb2 →
  register_listener (register_listener self event cb1 tr).1 event cb2 tr
  = ((register_listener self event cb1 tr).1, tr) ∧
  dispatch_event
    (register_listener (register_listener self event cb1 tr).1 event cb2 tr).1
    event args kwargs tr
  = (Ok (), tr ++ [DCall cb1 args kwargs]).
Proof.
  intros Hnone Hne.
  assert (register_listener self event cb1 tr
          = ({| _log := _log self;
                _listeners := <[event := {[cb1]}]> (_listeners self) |}, tr)) as Hreg1.
  { unfold register_listener. by rewrite Hnone. }
  rewrite Hreg1. cbn [fst].
  assert (register_listener
            {| _log := _log self;
               _listeners := <[event := {[cb1]}]> (_listeners self) |} event cb2 tr
          = ({| _log := _log self;
                _listeners := <[event := {[cb1]}]> (_listeners self) |}, tr)) as Hreg2.
  { unfold register_listener. cbn [_listeners]. rewrite lookup_insert_eq.
    by rewrite bool_decide_eq_false_2 by set_solver. }
  rewrite Hreg2. split; [done|].
  unfold dispatch_event. cbn [fst _listeners].
  rewrite lookup_insert_eq, bool_decide_eq_true_2 by set_solver.
  by rewrite elements_singleton.
Qed.

Lemma second_listener_dropped_witness :
  _listeners (EventDispatcher__init__ (Some app_log)) !! "Event.START" = None ∧
  ((1, "on_start") : callback) ≠ (2, "on_start_too") ∧
  register_listener
    (register_listener (EventDispatcher__init__ (Some app_log)) "Event.START"
       (1, "on_start") []).1 "Event.START" (2, "on_start_too") []
  = ((register_listener (EventDispatcher__init__ (Some app_log)) "Event.START"
        (1, "on_start") []).1, []) ∧
  dispatch_event
    (register_listener
       (register_listener (EventDispatcher__init__ (Some app_log)) "Event.START"
          (1, "on_start") []).1 "Event.START" (2, "on_start_too") []).1
    "Event.START" [VInt 7] [] []
  = (Ok (), [] ++ [DCall (1, "on_start") [VInt 7] []]).
Proof.
  assert (Hne : ((1, "on_start") : callback) ≠ (2, "on_start_too")) by discriminate.
  split; [reflexivity|]. split; [exact Hne|].
  exact (second_listener_dropped (EventDispatcher__init__ (Some app_log))
           "Event.START" (1, "on_start") (2, "on_start_too") [VInt 7] [] []
           eq_refl Hne).
Defined.


